(** * pyECG_graph: the strip/page partitioning of [generate_ecg_graph]

    A shallow embedding of [pyECG_graph/pyECG.py] (Python 2) and the
    properties of its partitioning, padding and metadata bookkeeping.

    Modelling conventions.
    - Python [int]s are [Z]; a Python [float] is the rational [Q] it
      denotes. The products and quotients that count strips, cut pages
      and lay out the time axis are taken exactly; the quotient that is
      returned as [record_time] is rounded to binary64 ([b64]). A float
      that is integral by construction ([float(math.ceil(..))]) is kept
      as the integer it denotes. [record_frequency] is an [int] or a
      [float] ([pynum]): Python 2's [/] floors the quotient of two
      [int]s.
    - An item of a trace is a Python float, [None], or some other
      object; NumPy arrays are lists of items, and both [None] in an
      object array and NaN in a float array are the missing marker.
    - Lists are heap objects: the caller's list and the local name
      [record] are the same location when a list is passed in.
    - The function is a state-and-exit monad over the heap and a log of
      file-system effects; file contents are not modelled.
    - matplotlib's [p.subplot] and [ax.plot], [ast.literal_eval], the
      files that are read, the formatting of floats, and the failures of
      the file system and of [phantomjs] are collaborators, gathered in
      [Env]. The other calls that only set up the figure ([plt.figure],
      the limits and tick labels) are not modelled. *)

From Stdlib Require Import ZArith QArith Qround Qabs Lqa Lia String Ascii DecimalString.
From Stdlib Require DecimalPos DecimalZ.
From stdpp Require Import base option list gmap strings.

Local Open Scope Z_scope.

(** ** Python primitives *)

Abbreviation len l := (Z.of_nat (length l)) (only parsing).

(** [int(x)] on a float: truncation towards zero. *)
Definition py_int (x : Q) : Z := Z.quot (Qnum x) (Zpos (Qden x)).

(** [round(x)] of Python 2: nearest integral float, halves away from zero. *)
Definition py_round (x : Q) : Q :=
  inject_Z (if Qle_bool 0 x then Qfloor (x + (1 # 2)) else Qceiling (x - (1 # 2))).

(** [math.ceil(x)]. *)
Definition py_ceil (x : Q) : Z := Qceiling x.

(** A Python number given as [record_frequency]: an [int] or a [float]. *)
Inductive pynum :=
  | PInt (k : Z)
  | PFloat (x : Q).

(** [float(r)]: the value of a number. *)
Definition num_val (r : pynum) : Q :=
  match r with PInt k => inject_Z k | PFloat x => x end.

Coercion num_val : pynum >-> Q.

(** [n / r] for an [int] [n]: Python 2 floors the quotient of two
    [int]s. (A zero divisor does not come up: line 172 raises first.) *)
Definition py_div (n : Z) (r : pynum) : Q :=
  match r with
  | PInt k => inject_Z (n / k)
  | PFloat x => (inject_Z n / x)%Q
  end.

(** *** Binary64 *)

(** [2^e]. *)
Definition pow2 (e : Z) : Q :=
  if 0 <=? e then inject_Z (2 ^ e) else (1 # Z.to_pos (2 ^ (- e)))%Q.

(** [floor(log2(x))] of a positive rational. *)
Definition ilog2 (x : Q) : Z :=
  let e := Z.log2 (Qnum x) - Z.log2 (Zpos (Qden x)) in
  if Qle_bool (pow2 e) x then e else e - 1.

(** The nearest integer, ties to the even one. *)
Definition round_half_even (x : Q) : Z :=
  let n := Qfloor x in
  match (x - inject_Z n ?= 1 # 2)%Q with
  | Lt => n
  | Gt => n + 1
  | Eq => if Z.even n then n else n + 1
  end.

(** The binary64 float nearest to [x], ties to even: a significand of
    53 bits, and the subnormals below [2^-1022]. No quotient of a run
    that returns comes near the overflow threshold, which is left out:
    there the strip length [int(one_strip_time * record_frequency)] is
    at least 1. *)
Definition b64 (x : Q) : Q :=
  if Qeq_bool x 0 then 0%Q
  else
    let a := Qabs x in
    let e := Z.max (ilog2 a - 52) (-1074) in
    Qred (inject_Z (Z.sgn (Qnum x) * round_half_even (a / pow2 e)) * pow2 e).

(** Position denoted by a slice bound [i] in a sequence of length [n]. *)
Definition slice_index (n i : Z) : Z :=
  if i <? 0 then Z.max 0 (i + n) else Z.min i n.

(** [l[lo:hi]]. *)
Definition py_slice {A} (l : list A) (lo hi : Z) : list A :=
  let a := slice_index (len l) lo in
  let b := slice_index (len l) hi in
  take (Z.to_nat (b - a)) (drop (Z.to_nat a) l).

(** [v[lo:hi] = x] on a NumPy vector: the scalar is broadcast over the
    slice and the length is unchanged. *)
Definition np_fill {A} (v : list A) (lo hi : Z) (x : A) : list A :=
  let a := slice_index (len v) lo in
  let b := slice_index (len v) hi in
  take (Z.to_nat a) v ++ replicate (Z.to_nat (b - a)) x
    ++ drop (Z.to_nat a + Z.to_nat (b - a)) v.

(** [range(n)] and [xrange(n)]. *)
Definition py_range (n : Z) : list Z := map Z.of_nat (seq 0 (Z.to_nat n)).

(** [xrange(start, stop, step)]; [None] is the [ValueError] for a zero step. *)
Definition xrange (start stop step : Z) : option (list Z) :=
  if step =? 0 then None
  else
    let n := if 0 <? step then (stop - start + step - 1) / step
             else (start - stop - step - 1) / (- step) in
    Some (map (fun i => start + i * step) (py_range n)).

(** [enumerate(l)]. *)
Definition enumerate {A} (l : list A) : list (Z * A) :=
  imap (fun i x => (Z.of_nat i, x)) l.

(** ** The local helpers of [generate_ecg_graph] *)

(** [chunks(l, n)]: [for i in xrange(0, len(l), n): yield l[i:i+n]]. *)
Definition chunks {A} (l : list A) (n : Z) : option (list (list A)) :=
  idx ← xrange 0 (len l) n;
  Some (map (fun i => py_slice l i (i + n)) idx).

(** [partition(lst, n)]; [None] is the [ZeroDivisionError] of
    [len(lst) / float(n)] for [n = 0]. *)
Definition partition {A} (lst : list A) (n : Z) : option (list (list A)) :=
  if n =? 0 then None
  else
    let division := (inject_Z (len lst) / inject_Z n)%Q in
    Some (map (fun i => py_slice lst
                          (py_int (py_round (division * inject_Z i)))
                          (py_int (py_round (division * inject_Z (i + 1)))))
              (py_range n)).

(** ** Data model *)

(** An item of a trace: a float, [None], or any other Python object
    (a list literal may hold strings, nested lists, ...). *)
Inductive elem :=
  | ENone
  | ENum (x : Q)
  | EObj (repr : string).

(** A sample in the sense of the specification: numeric or missing. *)
Definition is_sample (e : elem) : bool :=
  match e with ENone | ENum _ => true | EObj _ => false end.

(** The entries [numpy.zeros] creates. *)
Definition zero : elem := ENum 0.

Abbreviation loc := positive (only parsing).

(** What a caller can pass as [ecg_data]. *)
Inductive pyvalue :=
  | VList (r : loc)        (* a list object; [isinstance(_, list)] holds *)
  | VNone
  | VStr (s : string)
  | VTuple (n : nat)       (* a tuple of [n] items *)
  | VOther.                (* a number or a dict *)

(** Whether ["...%s" % v] formats [v]: a tuple is taken as the list of
    arguments, and has to hold exactly the one the format asks for. *)
Definition formats (v : pyvalue) : bool :=
  match v with VTuple n => bool_decide (n = 1%nat) | _ => true end.

(** What [ast.literal_eval] can return. *)
Inductive literal :=
  | LitList (l : list elem)
  | LitOther.

(** The ways a run ends without returning [meta_data], one per site. *)
Inductive stop :=
  | Export_not_supported        (* line 142: logger.error; return None *)
  | Record_path_not_provided    (* line 50: sys.exit *)
  | Record_path_invalid         (* line 60: sys.exit *)
  | Record_not_a_valid_list     (* line 69: sys.exit *)
  | Record_must_be_a_list       (* line 157: logger.error; return None *)
  | Error_in_plotting           (* line 251: logger.error; return None *)
  | Uncaught (exn : string).    (* an exception nothing catches *)

(** The error kinds of the specification. *)
Inductive error := UnsupportedExport | InvalidInput | RenderingFailure.

Definition error_of (s : stop) : option error :=
  match s with
  | Export_not_supported => Some UnsupportedExport
  | Record_path_not_provided | Record_path_invalid
  | Record_not_a_valid_list | Record_must_be_a_list => Some InvalidInput
  | Error_in_plotting => Some RenderingFailure
  | Uncaught _ => None
  end.

(** Values of the display mapping and of the caller's [meta]. *)
Inductive disp :=
  | DStr (s : string)
  | DInt (z : Z).

Record meta_data := MetaData {
  md_record_frequency : pynum;
  md_scale : string;
  md_signals_num : Z;
  md_record_time : Z;
  md_output_files : gmap Z string;
  md_display_information : gmap string disp
}.

(** The operations on files and processes; each can raise. *)
Inductive io_op :=
  | OpWrite (path : string)       (* [fig.savefig]; [open(path, 'w')] and [write] *)
  | OpRead (path : string)        (* [open(path, 'rw+')], [read], [truncate], [close] *)
  | OpResource (name : string)    (* [resource_string('pyECG_graph.resources', name)] *)
  | OpCall (argv : list string)   (* [subprocess.call(argv)] *)
  | OpRemove (path : string).     (* [os.remove(path)] *)

(** Effects on the file system and on processes, in program order, and
    the operations that raised. *)
Inductive fs_event :=
  | FileWritten (path : string)
  | FileRemoved (path : string)
  | ProcessRun (argv : list string)
  | Raised (op : io_op) (exn : string).

(** What an operation that went through adds to the log. *)
Definition logged (op : io_op) : list fs_event :=
  match op with
  | OpWrite path => [FileWritten path]
  | OpCall argv => [ProcessRun argv]
  | OpRemove path => [FileRemoved path]
  | OpRead _ | OpResource _ => []
  end.

(** The store: list objects by location, and the effects so far. *)
Record world := World {
  heap : gmap loc (list elem);
  events : list fs_event
}.

(** The collaborators. *)
Record Env := {
  file_contents : string -> option string;       (* [open(p,'r').read()] *)
  literal_eval : string -> option literal;       (* [None]: it raises *)
  ax_plot : list Q -> list elem -> bool;         (* [false]: [ValueError] *)
  float_str : Q -> string;                       (* [str] of a float *)
  subplot : Z -> Z -> option string;
    (* [p.subplot(rows, 1, num)]: the exception it raises, if any *)
  io_error : list fs_event -> io_op -> option string
    (* the exception an operation raises, if any, after the events so far *)
}.

(** ** The monad of the embedding: state and early exit *)

Definition M (A : Type) : Type := world -> (stop + A) * world.

Definition ret {A} (x : A) : M A := fun w => (inr x, w).

Definition bind {A B} (m : M A) (k : A -> M B) : M B :=
  fun w => match m w with
           | (inl s, w') => (inl s, w')
           | (inr x, w') => k x w'
           end.

Definition halt {A} (s : stop) : M A := fun w => (inl s, w).

Notation "x <- m ;; k" := (bind m (fun x => k))
  (at level 100, m at next level, right associativity).
Notation "m ;;; k" := (bind m (fun _ => k))
  (at level 100, right associativity).

Definition lift_option {A} (exn : string) (o : option A) : M A :=
  match o with Some x => ret x | None => halt (Uncaught exn) end.

(** [for _ in range(n): body]. *)
Fixpoint for_range (n : nat) (body : M unit) : M unit :=
  match n with
  | O => ret tt
  | S n' => body ;;; for_range n' body
  end.

(** *** List objects *)

Definition list_read (r : loc) : M (list elem) :=
  fun w => match heap w !! r with
           | Some l => (inr l, w)
           | None => (inl (Uncaught "dangling reference"), w)
           end.

Definition list_update (r : loc) (f : list elem -> list elem) : M unit :=
  fun w => match heap w !! r with
           | Some l => (inr tt, World (<[r := f l]> (heap w)) (events w))
           | None => (inl (Uncaught "dangling reference"), w)
           end.

(** [l.insert(0, x)]. *)
Definition list_insert0 (r : loc) (x : elem) : M unit :=
  list_update r (fun l => x :: l).

(** [l.append(x)]. *)
Definition list_append (r : loc) (x : elem) : M unit :=
  list_update r (fun l => l ++ [x]).

(** A new list object. *)
Definition list_new (l : list elem) : M loc :=
  fun w => let r := fresh (dom (heap w)) in
           (inr r, World (<[r := l]> (heap w)) (events w)).

(** ** NumPy padding, as the helpers use it *)

(** [padwithnone(vector, pad_width, iaxis, kwargs)]: the vector after the
    in-place stores (which is also the value returned). *)
Definition padwithnone (vector : list elem) (pad_width : Q * Q) : list elem :=
  if negb (Qeq_bool pad_width.1 0 && Qeq_bool pad_width.2 0) then
    let v := np_fill vector 0 (py_int pad_width.1) ENone in
    np_fill v (- py_int pad_width.2) (len v) ENone
  else vector.

(** [prepadwithnone(vector, pad_width, iaxis, kwargs)]: the vector after the
    in-place store, and the slice the function returns. *)
Definition prepadwithnone (vector : list elem) (pad_width : Q * Q)
  : list elem * list elem :=
  let v := if negb (Qeq_bool pad_width.1 0 && Qeq_bool pad_width.2 0)
           then np_fill vector (py_int pad_width.1) (py_int pad_width.2) ENone
           else vector in
  (v, py_slice v 0 (len v - 2 * py_int pad_width.2)).

(** [numpy.pad(array, pad_width, function)] on a vector, for a callable
    mode: a zero-filled vector of the new length receives the array at
    its offset, the function updates it in place, and what the function
    returns is dropped. A float width is truncated where an index is
    needed, as by the NumPy releases that accept one. [None] is the
    [ValueError] for a negative width. *)
Definition numpy_pad (array : list elem) (pad_width : Q * Q)
    (function : list elem -> Q * Q -> list elem) : option (list elem) :=
  if Qle_bool 0 pad_width.1 && Qle_bool 0 pad_width.2 then
    let new_shape := py_int (inject_Z (len array) + (pad_width.1 + pad_width.2)) in
    let zeros := replicate (Z.to_nat new_shape) zero in
    let off := Z.to_nat (py_int pad_width.1) in
    let newmat := take off zeros ++ array ++ drop (off + length array) zeros in
    Some (function newmat pad_width)
  else None.

(** ** [generate_ecg_graph] *)

(** [str(n)] for an [int]. *)
Definition str_int (n : Z) : string := NilZero.string_of_int (Z.to_int n).

Definition default_frequency : pynum := PFloat 250.
Definition plot_scale : string := "25mm/s, 10mm/mV".

(** What the page loop carries: [output_files] and the last [file_name]. *)
Abbreviation loop_state := (gmap Z string * option string)%type (only parsing).

Section Generate.

Context (env : Env).

(** The two layout constants bound at the top of the function. The
    source fixes them to 8 and 4 (see [generate_ecg_graph] below); the
    definitions are the code for any non-zero values. *)
Variables (one_strip_time strips_per_page : Z).

(** An operation on a file or a process: it goes through and is logged,
    or it raises, which nothing in the function catches. *)
Definition perform (op : io_op) : M unit :=
  fun w => match io_error env (events w) op with
           | Some exn =>
               (inl (Uncaught exn), World (heap w) (events w ++ [Raised op exn]))
           | None => (inr tt, World (heap w) (events w ++ logged op))
           end.

(** [get_ecg_data(record_path)]. Line 47 formats [record_path] into the
    debug message before anything is tested. *)
Definition get_ecg_data (record_path : pyvalue) : M (list elem) :=
  if negb (formats record_path) then halt (Uncaught "TypeError") else
  match record_path with
  | VNone | VStr "" => halt Record_path_not_provided
  | VStr p =>
      match file_contents env p with
      | None => halt Record_path_invalid
      | Some graph_data =>
          match literal_eval env graph_data with
          | Some (LitList graph_list) => ret graph_list
          | Some LitOther | None => halt Record_not_a_valid_list
          end
      end
  | VList _ | VTuple _ | VOther => halt Record_path_invalid
  end.

Definition one_strip_length (record_frequency : Q) : Q :=
  inject_Z one_strip_time * record_frequency.

(** [float(math.ceil(float(signals_num) / float(one_strip_length)))]. *)
Definition no_of_strips (signals_num : Z) (record_frequency : Q) : Z :=
  py_ceil (inject_Z signals_num / one_strip_length record_frequency).

(** Lines 174-177. *)
Definition extra_strips_needed (no_of_strips : Z) : Z :=
  if negb (no_of_strips mod strips_per_page =? 0)
  then strips_per_page - no_of_strips mod strips_per_page
  else 0.

(** The argument of [partition] at line 184. *)
Definition page_count (signals_num : Z) (record_frequency : Q) : Z :=
  let n := no_of_strips signals_num record_frequency in
  py_int (inject_Z (n + extra_strips_needed n) / inject_Z strips_per_page).

(** Lines 189-190: the number of rows handed to [p.subplot]. *)
Definition subplot_rows (signals_num : Z) (record_frequency : Q) : Z :=
  let n := no_of_strips signals_num record_frequency in
  if n <? strips_per_page then n + extra_strips_needed n else n.

(** Line 186: [int(round((signals_num - 125) / record_frequency))]. The
    quotient of two [int]s is floored; with a [float] frequency it is
    the binary64 quotient. *)
Definition record_time (signals_num : Z) (record_frequency : pynum) : Z :=
  match record_frequency with
  | PInt k =>
      py_int (py_round (b64 (inject_Z ((signals_num - 125) / k))))
  | PFloat x =>
      py_int (py_round (b64 (b64 (inject_Z (signals_num - 125)) / b64 x)))
  end.

(** Lines 219-227: the array handed to [ax.plot] for strip [num] of a page. *)
Definition strip_data (record_frequency : Q) (num : Z) (plot : list elem)
  : option (list elem) :=
  if num =? 0 then
    data ← numpy_pad plot (0, 125)%Q (fun v w => (prepadwithnone v w).1);
    Some (py_slice data 0 (len data - 125))
  else
    numpy_pad plot (0, one_strip_length record_frequency - inject_Z (len plot))%Q
      padwithnone.

(** Lines 233-234: the list [nrange]. *)
Definition nrange (record_frequency : pynum) (start_time end_time : Q) (n : Z)
  : list Q :=
  List.filter (fun t => Qle_bool t end_time)
    (map (fun nu => start_time + inject_Z nu * py_div 1 record_frequency)%Q
         (py_range n)).

(** Lines 215-259: the strips of one page, in order. [no_of_strips] is
    the number of rows asked of [p.subplot], outside the [try]. *)
Fixpoint plot_strips (no_of_strips : Z) (record_frequency : pynum)
    (strips : list (Z * list elem)) (start_time end_time : Q) : stop + unit :=
  match strips with
  | [] => inr tt
  | (num, plot) :: rest =>
      match strip_data record_frequency num plot with
      | None => inl (Uncaught "ValueError")
      | Some data =>
          let end_time := (end_time + py_div (len data) record_frequency)%Q in
          let t := nrange record_frequency start_time end_time (len data) in
          match subplot env no_of_strips (num + 1) with
          | Some exn => inl (Uncaught exn)
          | None =>
              if ax_plot env t data
              then plot_strips no_of_strips record_frequency rest end_time end_time
              else inl Error_in_plotting
          end
      end
  end.

(** Lines 195-296: one iteration of the page loop. *)
Definition plot_page (output_dir output_file_name export_to : string)
    (no_of_strips : Z) (record_frequency : pynum)
    (seq : Z) (rec : list elem) (st : loop_state)
  : M loop_state :=
  plot_record_list <- lift_option "ValueError"
      (chunks rec (py_int (one_strip_length record_frequency)));;
  match plot_strips no_of_strips record_frequency
          (enumerate plot_record_list) 0 0 with
  | inl s => halt s
  | inr _ =>
      let file_name := output_dir +:+ str_int (seq + 1) +:+ ".svg" in
      perform (OpWrite file_name);;;             (* fig.savefig *)
      perform (OpRead file_name);;;              (* the graph, read back *)
      perform (OpResource "ecg_grid.svg");;;
      perform (OpWrite file_name);;;             (* the merged grid and graph *)
      ret (<[seq + 1 := output_dir +:+ output_file_name +:+ "." +:+ export_to]> st.1,
           Some file_name)
  end.

Fixpoint plot_pages (output_dir output_file_name export_to : string)
    (no_of_strips : Z) (record_frequency : pynum)
    (record_list : list (Z * list elem))
    (st : loop_state) : M loop_state :=
  match record_list with
  | [] => ret st
  | (seq, rec) :: rest =>
      st' <- plot_page output_dir output_file_name export_to
               no_of_strips record_frequency seq rec st;;
      plot_pages output_dir output_file_name export_to
        no_of_strips record_frequency rest st'
  end.

(** [str(record_frequency)]. *)
Definition py_str (r : pynum) : string :=
  match r with PInt k => str_int k | PFloat x => float_str env x end.

(** Lines 299-302: the dict literal [display_information]. *)
Definition display_information (record_frequency : pynum)
    (signals_num record_time : Z) : gmap string disp :=
  <["Record frequency" := DStr (py_str record_frequency +:+ " Hz")]>
  (<["Scale" := DStr plot_scale]>
  (<["No. of signals" := DInt signals_num]>
  (<["Duration" := DStr (str_int record_time +:+ " seconds")]> ∅))).

(** Lines 146-184: resolve the input, prepend the legend gap, pad the
    tail, and partition into pages. Yields the list object [record],
    [signals_num] and [record_list]. *)
Definition partition_record (ecg_data : pyvalue) (record_frequency : Q)
  : M (loc * Z * list (list elem)) :=
  record <- match ecg_data with
            | VList r => ret r
            | _ => l <- get_ecg_data ecg_data;; list_new l
            end;;
  (* [isinstance(record, list)] holds here: line 157 is never reached *)
  for_range 125 (list_insert0 record ENone);;;
  l <- list_read record;;
  let signals_num := len l in
  let one_strip_length := one_strip_length record_frequency in
  if Qeq_bool one_strip_length 0 then halt (Uncaught "ZeroDivisionError") else
  let no_of_strips := no_of_strips signals_num record_frequency in
  let extra_strips_needed := extra_strips_needed no_of_strips in
  (if negb (no_of_strips mod strips_per_page =? 0) then
     for_range (Z.to_nat extra_strips_needed)
       (for_range (Z.to_nat (py_int one_strip_length))
          (list_append record ENone))
   else ret tt);;;
  l <- list_read record;;
  record_list <- lift_option "ZeroDivisionError"
      (partition l (page_count signals_num record_frequency));;
  ret (record, signals_num, record_list).

Definition generate_ecg_graph_with (ecg_data : pyvalue)
    (output_dir output_file_name export_to : string)
    (meta : gmap string disp) (kwargs_record_frequency : option pynum)
  : M meta_data :=
  if negb (bool_decide (export_to ∈ ["pdf"; "jpg"; "png"])) then
    halt Export_not_supported
  else
  let record_frequency := default default_frequency kwargs_record_frequency in
  parts <- partition_record ecg_data record_frequency;;
  let '(_, signals_num, record_list) := parts in
  let record_time := record_time signals_num record_frequency in
  let no_of_strips := subplot_rows signals_num record_frequency in
  st <- plot_pages output_dir output_file_name export_to
          no_of_strips record_frequency (enumerate record_list) (∅, None);;
  let output_files := st.1 in
  let display_information :=
    display_information record_frequency signals_num record_time in
  perform (OpResource "ecg_graph_template.svg");;;
  file_name <- lift_option "NameError" st.2;;
  let graph_page_svg_path := output_dir +:+ "graph_page.svg" in
  perform (OpWrite graph_page_svg_path);;;
  let temp_phantom_js_path2 := output_dir +:+ "/temp2.js" in
  perform (OpWrite temp_phantom_js_path2);;;
  perform (OpResource "phantompdf.js");;;
  perform (OpCall ["phantomjs"; temp_phantom_js_path2]);;;
  perform (OpRemove file_name);;;
  perform (OpRemove graph_page_svg_path);;;
  perform (OpRemove temp_phantom_js_path2);;;
  ret (MetaData record_frequency plot_scale signals_num record_time
         output_files (meta ∪ display_information)).

End Generate.

(** The function as the source has it: [one_strip_time = 8] and
    [strips_per_page = 4]. *)
Definition generate_ecg_graph (env : Env) := generate_ecg_graph_with env 8 4.

(** What a successful run returned, if it was one. *)
Definition returned {A} (r : (stop + A) * world) : option A :=
  match r.1 with inr x => Some x | inl _ => None end.

(** The error kind a run failed with, if any. *)
Definition failed_with {A} (r : (stop + A) * world) : option error :=
  match r.1 with inl s => error_of s | inr _ => None end.

(** The trace [ecg_data] resolves to in a given world: the list passed
    in, or the list literal in the file it names. *)
Definition resolved (env : Env) (w : world) (ecg_data : pyvalue)
  : option (list elem) :=
  match ecg_data with
  | VList r => heap w !! r
  | VStr p =>
      if bool_decide (p = "") then None
      else
        graph_data ← file_contents env p;
        lit ← literal_eval env graph_data;
        match lit with LitList l => Some l | LitOther => None end
  | VNone | VTuple _ | VOther => None
  end.

(** The trace after lines 160-182: the legend gap, the caller's samples,
    the wholly missing strips. *)
Definition padded_trace (one_strip_time strips_per_page : Z)
    (l : list elem) (record_frequency : Q) : list elem :=
  let n := no_of_strips one_strip_time (len l + 125) record_frequency in
  replicate 125 ENone ++ l
    ++ replicate (Z.to_nat (extra_strips_needed strips_per_page n)
                  * Z.to_nat (py_int (one_strip_length one_strip_time record_frequency)))
         ENone.

(** Collaborators to run examples with: a renderer that takes exactly
    the pairs the specification allows (axes of equal length, samples
    numeric or missing), a grid that has the rows it was asked for and
    no other, one text file that holds no list literal, floats printed
    as Python prints the integral ones, and a file system and a
    [phantomjs] that do not fail. *)
Definition strict_env : Env := {|
  file_contents := fun p =>
    if String.eqb p "record.txt" then Some "not a list" else None;
  literal_eval := fun _ => None;
  ax_plot := fun t data =>
    bool_decide (length t = length data) && forallb is_sample data;
  float_str := fun x => str_int (Qfloor x) +:+ ".0";
  subplot := fun rows num =>
    if (1 <=? num) && (num <=? rows) then None else Some "ValueError";
  io_error := fun _ _ => None
|}.

(** A world where the caller holds one list, at location 1. *)
Definition caller_world (l : list elem) : world :=
  World {[ 1%positive := l ]} [].

(** * Facts about the primitives *)

Section Primitives.

Context {A : Type}.
Implicit Types (l : list A) (a b n i : Z).

Lemma py_int_inject_Z z : py_int (inject_Z z) = z.
Proof. unfold py_int; simpl. apply Z.quot_1_r. Qed.

Lemma py_round_nonneg x :
  (0 <= x)%Q -> py_round x = inject_Z (Qfloor (x + (1 # 2))).
Proof.
  intros H. unfold py_round.
  apply Qle_bool_iff in H. by rewrite H.
Qed.

Lemma py_int_round_nonneg x :
  (0 <= x)%Q -> py_int (py_round x) = Qfloor (x + (1 # 2)).
Proof. intros H. by rewrite py_round_nonneg, py_int_inject_Z. Qed.

Lemma slice_index_nonneg n i : 0 <= i -> slice_index n i = Z.min i n.
Proof. intros H. unfold slice_index. destruct (Z.ltb_spec i 0); [lia|done]. Qed.

Lemma py_slice_nonneg l a b :
  0 <= a -> 0 <= b ->
  py_slice l a b = take (Z.to_nat (b - a)) (drop (Z.to_nat a) l).
Proof.
  intros Ha Hb. unfold py_slice.
  rewrite !slice_index_nonneg by lia.
  destruct (Z.le_gt_cases (len l) a) as [Hge|Hlt].
  - rewrite (Z.min_r a) by lia.
    rewrite !drop_ge by lia. by rewrite !take_nil.
  - rewrite (Z.min_l a) by lia.
    apply Z.min_case_strong; intros Hcmp; [done|].
    rewrite !take_ge; [done| |]; rewrite length_drop; lia.
Qed.

Lemma py_slice_whole l : py_slice l 0 (len l) = l.
Proof.
  rewrite py_slice_nonneg by lia. simpl.
  rewrite Z.sub_0_r, Nat2Z.id. apply firstn_all.
Qed.

Lemma py_slice_beyond l b : len l <= b -> py_slice l 0 b = l.
Proof.
  intros H. rewrite py_slice_nonneg by lia. simpl.
  apply take_ge. lia.
Qed.

Lemma length_py_slice l a b :
  0 <= a -> a <= b -> b <= len l -> len (py_slice l a b) = b - a.
Proof.
  intros. rewrite py_slice_nonneg by lia.
  rewrite length_take, length_drop. lia.
Qed.

Lemma length_py_slice_le l a b :
  0 <= a -> 0 <= b -> len (py_slice l a b) <= Z.max 0 (b - a).
Proof.
  intros. rewrite py_slice_nonneg by lia.
  rewrite length_take. lia.
Qed.

Lemma py_range_of_nat (n : nat) :
  py_range (Z.of_nat n) = map Z.of_nat (seq 0 n).
Proof. unfold py_range. by rewrite Nat2Z.id. Qed.

Lemma py_range_succ (n : nat) :
  py_range (Z.of_nat (S n)) = py_range (Z.of_nat n) ++ [Z.of_nat n].
Proof. rewrite !py_range_of_nat, seq_S, map_app. done. Qed.

Lemma length_py_range n : length (py_range n) = Z.to_nat n.
Proof. unfold py_range. by rewrite length_map, length_seq. Qed.

Lemma elem_of_py_range n i : i ∈ py_range n <-> 0 <= i < n.
Proof.
  unfold py_range. rewrite list_elem_of_fmap. split.
  - intros (k & -> & Hk). apply elem_of_seq in Hk. lia.
  - intros H. exists (Z.to_nat i). split; [lia|].
    apply elem_of_seq. lia.
Qed.

(** Consecutive slices along non-decreasing cut points concatenate to
    the slice between the first and the last cut. *)
Lemma concat_slices l (cut : Z -> Z) (n : nat) :
  0 <= cut 0 ->
  (forall i, 0 <= i < Z.of_nat n -> cut i <= cut (i + 1)) ->
  concat (map (fun i => py_slice l (cut i) (cut (i + 1))) (py_range (Z.of_nat n)))
  = py_slice l (cut 0) (cut (Z.of_nat n)).
Proof.
  intros H0 Hmono. induction n as [|n IH].
  - change (Z.of_nat 0) with 0. simpl.
    rewrite py_slice_nonneg by lia. by rewrite Z.sub_diag.
  - rewrite py_range_succ, map_app, concat_app, IH by (intros; apply Hmono; lia).
    simpl. rewrite app_nil_r.
    assert (Hle : forall k : nat, (k <= S n)%nat -> cut 0 <= cut (Z.of_nat k)).
    { induction k as [|k IHk]; intros Hk; [change (Z.of_nat 0) with 0; lia|].
      etrans; [apply IHk; lia|].
      replace (Z.of_nat (S k)) with (Z.of_nat k + 1) by lia.
      apply Hmono. lia. }
    pose proof (Hle n ltac:(lia)) as Hn.
    pose proof (Hmono (Z.of_nat n) ltac:(lia)) as Hn1.
    replace (Z.of_nat (S n)) with (Z.of_nat n + 1) by lia.
    rewrite !py_slice_nonneg by lia.
    set (c0 := Z.to_nat (cut 0)).
    replace (Z.to_nat (cut (Z.of_nat n)))
      with (c0 + Z.to_nat (cut (Z.of_nat n) - cut 0)%Z)%nat by (subst c0; lia).
    rewrite <- drop_drop, take_take_drop. f_equal. lia.
Qed.

End Primitives.

(** * Facts about rounding *)

Section Rounding.

Local Open Scope Q_scope.

Lemma Qfloor_unique (y : Q) (k : Z) :
  inject_Z k <= y -> y < inject_Z (k + 1) -> Qfloor y = k.
Proof.
  intros Hlo Hhi. apply Z.le_antisymm.
  - apply Z.lt_succ_r. rewrite Zlt_Qlt.
    eapply Qle_lt_trans; [apply Qfloor_le|]. exact Hhi.
  - rewrite <- (Qfloor_Z k). by apply Qfloor_resp_le.
Qed.

Lemma Qceiling_unique (y : Q) (k : Z) :
  inject_Z (k - 1) < y -> y <= inject_Z k -> Qceiling y = k.
Proof.
  intros Hlo Hhi. apply Z.le_antisymm.
  - rewrite <- (Qceiling_Z k). by apply Qceiling_resp_le.
  - cut (k - 1 < Qceiling y)%Z; [lia|]. rewrite Zlt_Qlt.
    eapply Qlt_le_trans; [exact Hlo|]. apply Qle_ceiling.
Qed.

Lemma Qfloor_half (z : Z) : Qfloor (inject_Z z + (1 # 2)) = z.
Proof.
  apply Qfloor_unique; [lra|]. rewrite inject_Z_plus.
  change (inject_Z 1) with 1. lra.
Qed.

(** [round] is monotone on the non-negative floats. *)
Lemma py_int_round_mono (x y : Q) :
  0 <= x -> x <= y -> (py_int (py_round x) <= py_int (py_round y))%Z.
Proof.
  intros Hx Hxy. rewrite !py_int_round_nonneg by lra.
  apply Qfloor_resp_le. lra.
Qed.

Lemma py_int_round_Z (x : Q) (z : Z) :
  (0 <= z)%Z -> x == inject_Z z -> py_int (py_round x) = z.
Proof.
  intros Hz Hx.
  assert (0 <= x) by (rewrite Hx; change 0 with (inject_Z 0); by rewrite <- Zle_Qle).
  rewrite py_int_round_nonneg by done.
  rewrite Hx. apply Qfloor_half.
Qed.

(** Rounded cut points at least [s] apart when the exact ones are. *)
Lemma py_int_round_gap (x y : Q) (s : Z) :
  0 <= x -> x + inject_Z s <= y -> (0 <= s)%Z ->
  (py_int (py_round x) + s <= py_int (py_round y))%Z.
Proof.
  intros Hx Hxy Hs.
  assert (0 <= inject_Z s) by (change 0 with (inject_Z 0); by rewrite <- Zle_Qle).
  rewrite !py_int_round_nonneg by lra.
  rewrite <- (Qfloor_Z (Qfloor (x + (1 # 2)) + s)).
  apply Qfloor_resp_le. rewrite inject_Z_plus.
  pose proof (Qfloor_le (x + (1 # 2))). lra.
Qed.

End Rounding.

(** * Facts about [chunks] and [partition] *)

(** The cut points [int(round(division * i))] of [partition]. *)
Definition page_cut (L n i : Z) : Z :=
  py_int (py_round (inject_Z L / inject_Z n * inject_Z i)).

Section PageCut.

Variables (L n : Z).
Hypotheses (HL : 0 <= L) (Hn : 1 <= n).

Local Open Scope Q_scope.

Let division : Q := inject_Z L / inject_Z n.

Local Lemma n_pos : 0 < inject_Z n.
Proof. change 0 with (inject_Z 0). rewrite <- Zlt_Qlt. lia. Qed.

Local Lemma division_nonneg : 0 <= division.
Proof.
  apply Qle_shift_div_l; [apply n_pos|].
  rewrite Qmult_0_l. change 0 with (inject_Z 0). rewrite <- Zle_Qle. lia.
Qed.

Local Lemma division_times (i : Z) :
  (0 <= i)%Z -> 0 <= division * inject_Z i.
Proof.
  intros Hi. apply Qmult_le_0_compat; [apply division_nonneg|].
  change 0 with (inject_Z 0). by rewrite <- Zle_Qle.
Qed.

Lemma page_cut_0 : page_cut L n 0 = 0%Z.
Proof.
  unfold page_cut. apply py_int_round_Z; [lia|].
  change (inject_Z 0) with 0. ring.
Qed.

Lemma page_cut_last : page_cut L n n = L.
Proof.
  unfold page_cut. apply py_int_round_Z; [lia|].
  rewrite Qmult_comm. apply Qmult_div_r.
  pose proof n_pos. lra.
Qed.

Lemma page_cut_gap (s i : Z) :
  (0 <= i)%Z -> (0 <= s)%Z -> (n * s <= L)%Z ->
  (page_cut L n i + s <= page_cut L n (i + 1))%Z.
Proof.
  intros Hi Hs Hns. unfold page_cut.
  apply py_int_round_gap; [by apply division_times| |done].
  fold division. rewrite inject_Z_plus. change (inject_Z 1) with 1.
  assert (inject_Z s <= division).
  { apply Qle_shift_div_l; [apply n_pos|].
    rewrite <- inject_Z_mult, <- Zle_Qle. lia. }
  lra.
Qed.

Lemma page_cut_step (i : Z) :
  (0 <= i)%Z -> (page_cut L n i <= page_cut L n (i + 1))%Z.
Proof.
  intros Hi. pose proof (page_cut_gap 0 i Hi). lia.
Qed.

Lemma page_cut_mono (i j : Z) :
  (0 <= i)%Z -> (i <= j)%Z -> (page_cut L n i <= page_cut L n j)%Z.
Proof.
  intros Hi Hij. unfold page_cut.
  apply py_int_round_mono; [by apply division_times|].
  fold division. rewrite (Qmult_comm division (inject_Z i)), (Qmult_comm division (inject_Z j)).
  apply Qmult_le_compat_r; [|apply division_nonneg].
  by rewrite <- Zle_Qle.
Qed.

Lemma page_cut_nonneg (i : Z) : (0 <= i)%Z -> (0 <= page_cut L n i)%Z.
Proof.
  intros Hi. rewrite <- page_cut_0. apply page_cut_mono; lia.
Qed.

Lemma page_cut_le (i : Z) : (0 <= i <= n)%Z -> (page_cut L n i <= L)%Z.
Proof.
  intros Hi. rewrite <- page_cut_last at 2. apply page_cut_mono; lia.
Qed.

End PageCut.

Section Partitioning.

Context {A : Type}.
Implicit Types (l : list A) (n s : Z).

Lemma py_range_to_nat n : py_range n = py_range (Z.of_nat (Z.to_nat n)).
Proof. unfold py_range. by rewrite Nat2Z.id. Qed.

Lemma chunks_eq l n :
  1 <= n ->
  chunks l n = Some (map (fun i => py_slice l (i * n) ((i + 1) * n))
                          (py_range ((len l + n - 1) / n))).
Proof.
  intros Hn. unfold chunks, xrange.
  destruct (Z.eqb_spec n 0); [lia|].
  destruct (Z.ltb_spec 0 n); [|lia]. simpl.
  rewrite Z.sub_0_r, map_map. f_equal.
  apply map_ext. intros i. f_equal; lia.
Qed.

Lemma chunks_concat l n :
  1 <= n -> exists cs, chunks l n = Some cs /\ concat cs = l.
Proof.
  intros Hn. eexists. split; [by apply chunks_eq|].
  rewrite py_range_to_nat.
  rewrite (concat_slices l (fun i => i * n)); [|lia|intros; lia].
  simpl. apply py_slice_beyond.
  assert (0 <= (len l + n - 1) / n) by (apply Z.div_pos; lia).
  rewrite Z2Nat.id by done.
  pose proof (Z.div_mod (len l + n - 1) n ltac:(lia)).
  pose proof (Z.mod_pos_bound (len l + n - 1) n ltac:(lia)).
  nia.
Qed.

Lemma partition_eq l n :
  n <> 0 ->
  partition l n
  = Some (map (fun i => py_slice l (page_cut (len l) n i) (page_cut (len l) n (i + 1)))
              (py_range n)).
Proof.
  intros Hn. unfold partition.
  destruct (Z.eqb_spec n 0); [done|]. reflexivity.
Qed.

Lemma partition_concat l n :
  1 <= n -> exists ps, partition l n = Some ps /\ concat ps = l /\ len ps = n.
Proof.
  intros Hn. eexists. split; [apply partition_eq; lia|]. split.
  - rewrite py_range_to_nat.
    rewrite (concat_slices l (page_cut (len l) n)).
    + rewrite Z2Nat.id, page_cut_0, page_cut_last by lia.
      apply py_slice_whole.
    + rewrite page_cut_0 by lia. lia.
    + intros i Hi. apply page_cut_step; lia.
  - rewrite length_map, length_py_range. lia.
Qed.

(** Every page holds at least [s] items when the list holds [n * s]. *)
Lemma partition_page_length l n s ps page :
  1 <= n -> 0 <= s -> n * s <= len l ->
  partition l n = Some ps -> page ∈ ps -> s <= len page.
Proof.
  intros Hn Hs Hns Hps Hin.
  rewrite partition_eq in Hps by lia. injection Hps as <-.
  apply list_elem_of_fmap in Hin as (i & -> & Hi).
  apply elem_of_py_range in Hi.
  pose proof (page_cut_gap (len l) n ltac:(lia) Hn s i ltac:(lia) Hs Hns).
  pose proof (page_cut_nonneg (len l) n ltac:(lia) Hn i ltac:(lia)).
  pose proof (page_cut_le (len l) n ltac:(lia) Hn (i + 1) ltac:(lia)).
  rewrite length_py_slice by lia. lia.
Qed.

End Partitioning.

(** * Running the monadic code *)

Section Runs.

Lemma bind_inr {A B} (m : M A) (k : A -> M B) w x w' :
  m w = (inr x, w') -> bind m k w = k x w'.
Proof. intros H. unfold bind. by rewrite H. Qed.

Lemma bind_cong {A B} (m m' : M A) (k k' : A -> M B) w :
  m w = m' w -> (forall x w', k x w' = k' x w') -> bind m k w = bind m' k' w.
Proof.
  intros Hm Hk. unfold bind. rewrite Hm.
  destruct (m' w) as [[s|x] w']; [done|apply Hk].
Qed.

Lemma bind_inl {A B} (m : M A) (k : A -> M B) w s w' :
  m w = (inl s, w') -> bind m k w = (inl s, w').
Proof. intros H. unfold bind. by rewrite H. Qed.

(** An action that only replaces the list at [r] by [f] of it. *)
Definition updates (m : M unit) (r : loc) (f : list elem -> list elem) : Prop :=
  forall w l, heap w !! r = Some l ->
    m w = (inr tt, World (<[r := f l]> (heap w)) (events w)).

Lemma list_update_updates r f : updates (list_update r f) r f.
Proof. intros w l H. unfold list_update. by rewrite H. Qed.

Lemma for_range_updates m r f n :
  updates m r f -> updates (for_range n m) r (Nat.iter n f).
Proof.
  intros Hm. induction n as [|n IH]; intros w l Hl.
  - simpl. unfold ret. rewrite insert_id by done. by destruct w.
  - change (for_range (S n) m) with (bind m (fun _ => for_range n m)).
    erewrite bind_inr by (by apply Hm).
    erewrite IH by (cbn [heap]; apply lookup_insert_eq).
    cbn [heap events]. rewrite insert_insert_eq. by rewrite Nat.iter_succ_r.
Qed.

Lemma iter_cons (x : elem) n l : Nat.iter n (cons x) l = replicate n x ++ l.
Proof. induction n as [|n IH]; simpl; [done|]. by rewrite IH. Qed.

Lemma iter_snoc (x : elem) n l :
  Nat.iter n (fun l => l ++ [x]) l = l ++ replicate n x.
Proof.
  induction n as [|n IH]; simpl; [by rewrite app_nil_r|].
  rewrite IH, <- app_assoc. f_equal.
  change [x] with (replicate 1 x). rewrite <- replicate_add.
  by replace (n + 1)%nat with (S n) by lia.
Qed.

Lemma iter_iter_snoc (x : elem) m n l :
  Nat.iter m (Nat.iter n (fun l => l ++ [x])) l = l ++ replicate (m * n) x.
Proof.
  induction m as [|m IH]; simpl; [by rewrite app_nil_r|].
  rewrite IH, iter_snoc, <- app_assoc, <- replicate_add.
  do 2 f_equal. lia.
Qed.

Lemma list_read_run r w l :
  heap w !! r = Some l -> list_read r w = (inr l, w).
Proof. intros H. unfold list_read. by rewrite H. Qed.

End Runs.

(** The list object that is [record], and the world once it exists. *)
Definition located (w : world) (ecg_data : pyvalue) (l : list elem)
  : loc * world :=
  match ecg_data with
  | VList r => (r, w)
  | _ => let r := fresh (dom (heap w)) in
         (r, World (<[r := l]> (heap w)) (events w))
  end.

Section PartitionRecord.

Context (env : Env) (one_strip_time strips_per_page : Z).

Lemma resolve_run ecg_data w l :
  resolved env w ecg_data = Some l ->
  (match ecg_data with
   | VList r => ret r
   | _ => l <- get_ecg_data env ecg_data;; list_new l
   end) w = (inr (located w ecg_data l).1, (located w ecg_data l).2)
  /\ heap (located w ecg_data l).2 !! (located w ecg_data l).1 = Some l.
Proof.
  intros H. destruct ecg_data as [r| |p|n|]; simpl in *; try done.
  destruct p as [|c p]; [done|].
  rewrite bool_decide_eq_false_2 in H by done.
  unfold bind, get_ecg_data; simpl.
  destruct (file_contents env (String c p)) as [txt|]; [|done]. simpl in H.
  destruct (literal_eval env txt) as [[l'|]|]; simpl in H; try done.
  injection H as ->. unfold ret, list_new. simpl.
  split; [done|]. apply lookup_insert_eq.
Qed.

Lemma length_padded_trace l f :
  len (padded_trace one_strip_time strips_per_page l f)
  = len l + 125
    + Z.of_nat (Z.to_nat (extra_strips_needed strips_per_page
                            (no_of_strips one_strip_time (len l + 125) f))
                * Z.to_nat (py_int (one_strip_length one_strip_time f))).
Proof.
  unfold padded_trace. rewrite !length_app, !length_replicate. lia.
Qed.

(** What lines 146-184 do, in closed form. *)
Lemma partition_record_run ecg_data f w l :
  resolved env w ecg_data = Some l ->
  let r := (located w ecg_data l).1 in
  let w1 := (located w ecg_data l).2 in
  let N := len l + 125 in
  partition_record env one_strip_time strips_per_page ecg_data f w
  = if Qeq_bool (one_strip_length one_strip_time f) 0 then
      (inl (Uncaught "ZeroDivisionError"),
       World (<[r := replicate 125 ENone ++ l]> (heap w1)) (events w1))
    else
      let padded := padded_trace one_strip_time strips_per_page l f in
      let w2 := World (<[r := padded]> (heap w1)) (events w1) in
      match partition padded (page_count one_strip_time strips_per_page N f) with
      | Some record_list => (inr (r, N, record_list), w2)
      | None => (inl (Uncaught "ZeroDivisionError"), w2)
      end.
Proof.
  intros H r w1 N. destruct (resolve_run _ _ _ H) as [Hres Hl].
  fold r w1 in Hres, Hl.
  unfold partition_record.
  erewrite bind_inr by exact Hres.
  erewrite bind_inr
    by (apply (for_range_updates _ r (cons ENone)); [apply list_update_updates|exact Hl]).
  erewrite bind_inr by (apply list_read_run; cbn [heap]; apply lookup_insert_eq).
  rewrite iter_cons.
  replace (len (replicate 125 ENone ++ l)) with N
    by (rewrite length_app, length_replicate; lia).
  cbn [heap events].
  destruct (Qeq_bool (one_strip_length one_strip_time f) 0); [done|].
  set (k := no_of_strips one_strip_time N f).
  set (S := py_int (one_strip_length one_strip_time f)).
  set (w' := World (<[r:=replicate 125 ENone ++ l]> (heap w1)) (events w1)).
  assert (Hpad :
    (if negb (k mod strips_per_page =? 0)
     then for_range (Z.to_nat (extra_strips_needed strips_per_page k))
            (for_range (Z.to_nat S) (list_append r ENone))
     else ret tt) w'
    = (inr tt, World (<[r := padded_trace one_strip_time strips_per_page l f]> (heap w1))
                     (events w1))).
  { unfold padded_trace. fold N k S.
    destruct (negb (k mod strips_per_page =? 0)) eqn:Hmod.
    - unfold list_append.
      erewrite (for_range_updates _ r _ _
                  (for_range_updates _ r _ _ (list_update_updates r _)))
        by (subst w'; cbn [heap]; apply lookup_insert_eq).
      subst w'. cbn [heap events]. rewrite insert_insert_eq, iter_iter_snoc.
      by rewrite <- app_assoc.
    - unfold ret, extra_strips_needed. rewrite Hmod.
      change (Z.to_nat 0) with 0%nat. rewrite Nat.mul_0_l.
      subst w'. by rewrite app_nil_r. }
  erewrite bind_inr by exact Hpad.
  erewrite bind_inr by (apply list_read_run; cbn [heap]; apply lookup_insert_eq).
  cbn [heap events].
  destruct (partition _ _); reflexivity.
Qed.

End PartitionRecord.

(** * Strip and page arithmetic *)

Section StripCount.

Variables (one_strip_time strips_per_page : Z).
Hypotheses (Htime : 0 < one_strip_time) (Hpp : 0 < strips_per_page).

Local Open Scope Q_scope.

Lemma py_int_nonneg (x : Q) : 0 <= x -> py_int x = Qfloor x.
Proof.
  destruct x as [n d]. unfold Qle, py_int, Qfloor. simpl. intros H.
  apply Z.quot_div_nonneg; lia.
Qed.

Lemma inject_Z_nonneg (z : Z) : (0 <= z)%Z -> 0 <= inject_Z z.
Proof. intros H. change 0 with (inject_Z 0). by rewrite <- Zle_Qle. Qed.

Lemma inject_Z_pos (z : Z) : (0 < z)%Z -> 0 < inject_Z z.
Proof. intros H. change 0 with (inject_Z 0). by rewrite <- Zlt_Qlt. Qed.

Lemma one_strip_length_pos f : 0 < f -> 0 < one_strip_length one_strip_time f.
Proof.
  intros Hf. unfold one_strip_length.
  apply Qmult_lt_0_compat; [by apply inject_Z_pos|done].
Qed.

Lemma py_int_strip_le f :
  0 < f ->
  inject_Z (py_int (one_strip_length one_strip_time f))
  <= one_strip_length one_strip_time f.
Proof.
  intros Hf. pose proof (one_strip_length_pos f Hf).
  rewrite py_int_nonneg by lra. apply Qfloor_le.
Qed.

Lemma py_int_strip_nonneg f :
  0 < f -> (0 <= py_int (one_strip_length one_strip_time f))%Z.
Proof.
  intros Hf. pose proof (one_strip_length_pos f Hf).
  rewrite py_int_nonneg by lra.
  rewrite <- (Qfloor_Z 0). apply Qfloor_resp_le.
  change (inject_Z 0) with 0. lra.
Qed.

Lemma extra_strips_needed_eq (k : Z) :
  extra_strips_needed strips_per_page k
  = ((strips_per_page - k mod strips_per_page) mod strips_per_page)%Z.
Proof.
  unfold extra_strips_needed.
  pose proof (Z.mod_pos_bound k strips_per_page Hpp).
  destruct (Z.eqb_spec (k mod strips_per_page) 0) as [->|Hne]; simpl.
  - by rewrite Z.sub_0_r, Z.mod_same by lia.
  - symmetry. apply Z.mod_small. lia.
Qed.

Lemma extra_strips_needed_bounds (k : Z) :
  (0 <= extra_strips_needed strips_per_page k < strips_per_page)%Z.
Proof.
  rewrite extra_strips_needed_eq. apply Z.mod_pos_bound. lia.
Qed.

Lemma total_strips_mod (k : Z) :
  ((k + extra_strips_needed strips_per_page k) mod strips_per_page = 0)%Z.
Proof.
  unfold extra_strips_needed.
  pose proof (Z.mod_pos_bound k strips_per_page Hpp).
  destruct (Z.eqb_spec (k mod strips_per_page) 0) as [Heq|Hne]; simpl.
  - by rewrite Z.add_0_r.
  - rewrite (Z.div_mod k strips_per_page) at 1 by lia.
    replace (strips_per_page * (k / strips_per_page) + k mod strips_per_page
             + (strips_per_page - k mod strips_per_page))%Z
      with ((k / strips_per_page + 1) * strips_per_page)%Z by lia.
    apply Z.mod_mul. lia.
Qed.

Lemma no_of_strips_bounds (N : Z) f :
  0 < f ->
  let k := no_of_strips one_strip_time N f in
  let s := one_strip_length one_strip_time f in
  inject_Z (k - 1) * s < inject_Z N /\ inject_Z N <= inject_Z k * s.
Proof.
  intros Hf k s. pose proof (one_strip_length_pos f Hf) as Hs. fold s in Hs.
  assert (Hdiv : inject_Z N / s * s == inject_Z N).
  { rewrite Qmult_comm. apply Qmult_div_r. lra. }
  split.
  - rewrite <- Hdiv. apply Qmult_lt_compat_r; [done|]. apply Qceiling_lt.
  - rewrite <- Hdiv at 1. apply Qmult_le_compat_r; [|lra]. apply Qle_ceiling.
Qed.

Lemma no_of_strips_pos (N : Z) f :
  0 < f -> (0 < N)%Z -> (1 <= no_of_strips one_strip_time N f)%Z.
Proof.
  intros Hf HN. pose proof (one_strip_length_pos f Hf) as Hs.
  destruct (no_of_strips_bounds N f Hf) as [_ Hhi]. simpl in Hhi.
  pose proof (inject_Z_pos N HN).
  destruct (Z.le_gt_cases 1 (no_of_strips one_strip_time N f)) as [|Hk]; [done|].
  exfalso.
  assert (inject_Z (no_of_strips one_strip_time N f) <= 0).
  { change 0 with (inject_Z 0). rewrite <- Zle_Qle. lia. }
  assert (inject_Z (no_of_strips one_strip_time N f)
          * one_strip_length one_strip_time f <= 0); [|lra].
  rewrite <- (Qmult_0_l (one_strip_length one_strip_time f)).
  apply Qmult_le_compat_r; lra.
Qed.

(** The exact division of line 184. *)
Lemma page_count_eq (N : Z) f :
  0 < f -> (0 < N)%Z ->
  let k := no_of_strips one_strip_time N f in
  let P := page_count one_strip_time strips_per_page N f in
  (k + extra_strips_needed strips_per_page k = strips_per_page * P)%Z
  /\ (1 <= P)%Z.
Proof.
  intros Hf HN k P.
  pose proof (no_of_strips_pos N f Hf HN) as Hk. fold k in Hk.
  pose proof (extra_strips_needed_bounds k) as He.
  pose proof (total_strips_mod k) as Hmod.
  apply Z.mod_divide in Hmod as [m Hm]; [|lia].
  assert (HP : P = m).
  { unfold P, page_count. fold k. rewrite Hm.
    assert (Hq : inject_Z (m * strips_per_page) / inject_Z strips_per_page
                 == inject_Z m).
    { rewrite inject_Z_mult. apply Qdiv_mult_l.
      pose proof (inject_Z_pos _ Hpp). lra. }
    assert (0 <= m)%Z by nia.
    rewrite py_int_nonneg by (rewrite Hq; by apply inject_Z_nonneg).
    rewrite Hq. apply Qfloor_Z. }
  rewrite HP. split; [lia|nia].
Qed.



End StripCount.

(** * The partitioning: pages and strips *)

Section Strips.

Context (env : Env) (one_strip_time strips_per_page : Z).

(** Chunking every page loses nothing. *)
Lemma chunks_pages_concat (pages : list (list elem)) (n : Z) :
  1 <= n ->
  exists strips,
    mapM (fun rec => chunks rec n) pages = Some strips
    /\ concat (concat strips) = concat pages.
Proof.
  intros Hn. induction pages as [|page pages (strips & Hs & Hc)].
  - by exists [].
  - destruct (chunks_concat page n Hn) as (cs & Hcs & Hcat).
    exists (cs :: strips). split.
    + simpl. rewrite Hcs. simpl. by rewrite Hs.
    + simpl. by rewrite concat_app, Hcat, Hc.
Qed.

(** The partitioning phase succeeds on every resolvable input. *)
Lemma partition_record_ok ecg_data f w l :
  resolved env w ecg_data = Some l ->
  0 < one_strip_time -> 0 < strips_per_page -> (0 < f)%Q ->
  exists record_list,
    partition (padded_trace one_strip_time strips_per_page l f)
      (page_count one_strip_time strips_per_page (len l + 125) f)
      = Some record_list
    /\ partition_record env one_strip_time strips_per_page ecg_data f w
       = (inr ((located w ecg_data l).1, len l + 125, record_list),
          World (<[(located w ecg_data l).1
                   := padded_trace one_strip_time strips_per_page l f]>
                   (heap (located w ecg_data l).2))
                (events (located w ecg_data l).2)).
Proof.
  intros Hres Htime Hpp Hf.
  destruct (page_count_eq one_strip_time strips_per_page Htime Hpp
              (len l + 125) f Hf ltac:(lia)) as [_ HP].
  destruct (partition_concat
              (padded_trace one_strip_time strips_per_page l f) _ HP)
    as (ps & Hps & _).
  exists ps. split; [done|].
  rewrite (partition_record_run _ _ _ _ _ _ _ Hres). cbv zeta.
  pose proof (one_strip_length_pos one_strip_time Htime f Hf) as Hs.
  destruct (Qeq_bool _ 0) eqn:Heq.
  - apply Qeq_bool_iff in Heq. rewrite Heq in Hs. by apply Qlt_irrefl in Hs.
  - by rewrite Hps.
Qed.

End Strips.

(** * Pages of whole strips *)

Section Balance.

Local Open Scope Q_scope.

Lemma Qfloor_plus_Z (q : Q) (s : Z) :
  Qfloor (q + inject_Z s) = (Qfloor q + s)%Z.
Proof.
  apply Qfloor_unique.
  - rewrite inject_Z_plus. pose proof (Qfloor_le q). lra.
  - replace (Qfloor q + s + 1)%Z with (Qfloor q + 1 + s)%Z by lia.
    rewrite (inject_Z_plus (Qfloor q + 1)). pose proof (Qlt_floor q). lra.
Qed.

(** Rounded cut points at most [s] apart when the exact ones are. *)
Lemma py_int_round_gap_le (x y : Q) (s : Z) :
  0 <= x -> 0 <= y -> y <= x + inject_Z s ->
  (py_int (py_round y) <= py_int (py_round x) + s)%Z.
Proof.
  intros Hx Hy Hxy. rewrite !py_int_round_nonneg by done.
  rewrite <- Qfloor_plus_Z. apply Qfloor_resp_le. lra.
Qed.

Lemma page_cut_gap_le (L n s i : Z) :
  (0 <= L)%Z -> (1 <= n)%Z -> (0 <= i)%Z -> (L <= n * s)%Z ->
  (page_cut L n (i + 1) <= page_cut L n i + s)%Z.
Proof.
  intros HL Hn Hi Hs. unfold page_cut.
  pose proof (n_pos n Hn) as Hnpos.
  assert (Hdiv : inject_Z L / inject_Z n <= inject_Z s).
  { apply Qle_shift_div_r; [done|].
    rewrite <- inject_Z_mult, <- Zle_Qle. lia. }
  pose proof (division_nonneg L n HL Hn) as Hd0.
  apply py_int_round_gap_le.
  - by apply division_times.
  - apply division_times; [done..|lia].
  - rewrite inject_Z_plus. change (inject_Z 1) with 1. lra.
Qed.

End Balance.

(** No page holds more than [s] items when the list holds at most [n * s]. *)
Lemma partition_page_length_le {A} (l : list A) (n s : Z) ps page :
  1 <= n -> len l <= n * s ->
  partition l n = Some ps -> page ∈ ps -> len page <= s.
Proof.
  intros Hn Hns Hps Hin.
  rewrite partition_eq in Hps by lia. injection Hps as <-.
  apply list_elem_of_fmap in Hin as (i & -> & Hi).
  apply elem_of_py_range in Hi.
  pose proof (page_cut_gap_le (len l) n s i ltac:(lia) Hn ltac:(lia) Hns).
  pose proof (page_cut_nonneg (len l) n ltac:(lia) Hn i ltac:(lia)).
  pose proof (page_cut_step (len l) n ltac:(lia) Hn i ltac:(lia)).
  pose proof (page_cut_le (len l) n ltac:(lia) Hn (i + 1) ltac:(lia)).
  rewrite length_py_slice by lia. lia.
Qed.

Section FullPages.

Variables (one_strip_time strips_per_page : Z).
Hypotheses (Htime : 0 < one_strip_time) (Hpp : 0 < strips_per_page).

(** The bounds on the padded length that make every page a full one. *)
Lemma padded_length_full (n : Z) f :
  (0 < f)%Q -> 0 <= n ->
  (inject_Z (py_int (one_strip_length one_strip_time f))
   == one_strip_length one_strip_time f)%Q ->
  let N := n + 125 in
  let k := no_of_strips one_strip_time N f in
  let S := py_int (one_strip_length one_strip_time f) in
  let P := page_count one_strip_time strips_per_page N f in
  let L := N + extra_strips_needed strips_per_page k * S in
  1 <= S /\ 1 <= P
  /\ P * ((strips_per_page - 1) * S + 1) <= L
  /\ L <= P * (strips_per_page * S).
Proof.
  intros Hf Hn Hint N k S P L.
  assert (HS : 1 <= S).
  { pose proof (one_strip_length_pos one_strip_time Htime f Hf) as Hs.
    rewrite <- Hint in Hs. change 0%Q with (inject_Z 0) in Hs.
    rewrite <- Zlt_Qlt in Hs. fold S in Hs. lia. }
  destruct (page_count_eq one_strip_time strips_per_page Htime Hpp N f Hf
              ltac:(lia)) as [Hsum HP].
  fold k P in Hsum, HP.
  pose proof (extra_strips_needed_bounds strips_per_page Hpp k) as He.
  destruct (no_of_strips_bounds one_strip_time Htime N f Hf) as [Hlo Hhi].
  cbv zeta in Hlo, Hhi. fold k in Hlo, Hhi.
  rewrite <- Hint in Hlo, Hhi. fold S in Hlo, Hhi.
  rewrite <- inject_Z_mult, <- Zlt_Qlt in Hlo.
  rewrite <- inject_Z_mult, <- Zle_Qle in Hhi.
  subst L. set (e := extra_strips_needed strips_per_page k) in *.
  split; [done|]. split; [done|]. split; nia.
Qed.

(** Every page then holds more than [strips_per_page - 1] strips, and
    at most [strips_per_page]. *)
Lemma record_list_full (l : list elem) f record_list page :
  (0 < f)%Q ->
  (inject_Z (py_int (one_strip_length one_strip_time f))
   == one_strip_length one_strip_time f)%Q ->
  partition (padded_trace one_strip_time strips_per_page l f)
    (page_count one_strip_time strips_per_page (len l + 125) f)
    = Some record_list ->
  page ∈ record_list ->
  (strips_per_page - 1) * py_int (one_strip_length one_strip_time f) + 1
  <= len page
  <= strips_per_page * py_int (one_strip_length one_strip_time f).
Proof.
  intros Hf Hint Hpart Hin.
  destruct (padded_length_full (len l) f Hf ltac:(lia) Hint)
    as (HS & HP & Hlo & Hhi).
  set (S := py_int (one_strip_length one_strip_time f)) in *.
  set (P := page_count one_strip_time strips_per_page (len l + 125) f) in *.
  pose proof (extra_strips_needed_bounds strips_per_page Hpp
                (no_of_strips one_strip_time (len l + 125) f)) as He.
  pose proof (length_padded_trace one_strip_time strips_per_page l f) as HL.
  fold S in HL. split.
  - eapply (partition_page_length _ P _ record_list page HP);
      [nia| |exact Hpart|exact Hin].
    rewrite HL. lia.
  - eapply (partition_page_length_le _ P _ record_list page HP);
      [|exact Hpart|exact Hin].
    rewrite HL. lia.
Qed.

(** Such a page is cut into exactly [strips_per_page] strips. *)
Lemma full_page_chunks {A} (page : list A) (S : Z) :
  1 <= S ->
  (strips_per_page - 1) * S + 1 <= len page <= strips_per_page * S ->
  exists strips, chunks page S = Some strips /\ len strips = strips_per_page.
Proof.
  intros HS Hlen. eexists. split; [by apply chunks_eq|].
  rewrite length_map, length_py_range.
  assert ((len page + S - 1) / S = strips_per_page); [|lia].
  symmetry. apply Z.div_unique_pos with (r := len page + S - 1 - S * strips_per_page);
    lia.
Qed.

(** The grid asked of [p.subplot] has a row for every strip of a page. *)
Lemma subplot_rows_ge (N : Z) f :
  (0 < f)%Q -> 0 < N ->
  strips_per_page <= subplot_rows one_strip_time strips_per_page N f.
Proof.
  intros Hf HN. unfold subplot_rows.
  destruct (page_count_eq one_strip_time strips_per_page Htime Hpp N f Hf HN)
    as [Hsum HP]. cbv zeta in Hsum, HP.
  destruct (Z.ltb_spec (no_of_strips one_strip_time N f) strips_per_page); nia.
Qed.

End FullPages.

(** C1. Concatenating every strip of every page, in order, gives back
    the padded trace: 125 missing markers, then the caller's samples in
    their order, then the missing markers appended at the tail. Nothing
    is lost, duplicated or reordered. *)
Theorem strips_concat_padded_trace env one_strip_time strips_per_page
    ecg_data f w l :
  resolved env w ecg_data = Some l ->
  0 < one_strip_time -> 0 < strips_per_page -> (0 < f)%Q ->
  1 <= py_int (one_strip_length one_strip_time f) ->
  exists r record_list w' strips,
    partition_record env one_strip_time strips_per_page ecg_data f w
      = (inr (r, len l + 125, record_list), w')
    /\ heap w' !! r = Some (padded_trace one_strip_time strips_per_page l f)
    /\ mapM (fun rec => chunks rec (py_int (one_strip_length one_strip_time f)))
         record_list = Some strips
    /\ concat (concat strips)
       = replicate 125 ENone ++ l
         ++ replicate
              (Z.to_nat (extra_strips_needed strips_per_page
                           (no_of_strips one_strip_time (len l + 125) f))
               * Z.to_nat (py_int (one_strip_length one_strip_time f)))
              ENone.
Proof.
  intros Hres Htime Hpp Hf HS.
  destruct (partition_record_ok env _ _ _ _ _ _ Hres Htime Hpp Hf)
    as (record_list & Hpart & Hrun).
  destruct (chunks_pages_concat record_list _ HS) as (strips & Hstrips & Hcat).
  eexists _, record_list, _, strips. split; [exact Hrun|].
  split; [apply lookup_insert_eq|]. split; [exact Hstrips|].
  rewrite Hcat.
  destruct (page_count_eq one_strip_time strips_per_page Htime Hpp
              (len l + 125) f Hf ltac:(lia)) as [_ HP].
  destruct (partition_concat
              (padded_trace one_strip_time strips_per_page l f) _ HP)
    as (ps & Hps & Hcat' & _).
  rewrite Hpart in Hps. injection Hps as <-. exact Hcat'.
Qed.

Lemma strips_concat_padded_trace_witness :
  exists r record_list w' strips,
    partition_record strict_env 8 4 (VList 1%positive) 250
        (caller_world [ENum 1; ENum 2])
      = (inr (r, 127, record_list), w')
    /\ heap w' !! r = Some (padded_trace 8 4 [ENum 1; ENum 2] 250)
    /\ mapM (fun rec => chunks rec 2000) record_list = Some strips
    /\ concat (concat strips)
       = replicate 125 ENone ++ [ENum 1; ENum 2]
         ++ replicate (Z.to_nat 6000) ENone.
Proof.
  apply (strips_concat_padded_trace strict_env 8 4 (VList 1%positive) 250
           (caller_world [ENum 1; ENum 2]) [ENum 1; ENum 2]).
  - reflexivity.
  - lia.
  - lia.
  - reflexivity.
  - vm_compute. discriminate.
Defined.




(** * What the renderer is handed *)

Section Padding.

Implicit Types (v plot : list elem) (P : elem -> Prop).

Lemma slice_index_bounds n i : 0 <= n -> 0 <= slice_index n i <= n.
Proof. intros Hn. unfold slice_index. destruct (Z.ltb_spec i 0); lia. Qed.

Lemma length_np_fill v lo hi x : length (np_fill v lo hi x) = length v.
Proof.
  unfold np_fill.
  pose proof (slice_index_bounds (len v) lo ltac:(lia)).
  pose proof (slice_index_bounds (len v) hi ltac:(lia)).
  rewrite !length_app, length_take, length_replicate, length_drop. lia.
Qed.

Lemma Forall_np_fill P v lo hi x :
  P x -> Forall P v -> Forall P (np_fill v lo hi x).
Proof.
  intros Hx Hv. unfold np_fill. rewrite !Forall_app. split_and!.
  - by apply Forall_take.
  - by apply Forall_replicate.
  - by apply Forall_drop.
Qed.

Lemma Forall_py_slice {A} (Q : A -> Prop) (l : list A) a b :
  Forall Q l -> Forall Q (py_slice l a b).
Proof. intros H. unfold py_slice. by apply Forall_take, Forall_drop. Qed.

Lemma np_fill_nothing v x : np_fill v 0 0 x = v.
Proof.
  unfold np_fill. rewrite slice_index_nonneg by lia.
  rewrite Z.min_l by lia. simpl. apply drop_0.
Qed.

Lemma np_fill_tail v k x :
  0 < k <= len v ->
  np_fill v (- k) (len v) x
  = take (Z.to_nat (len v - k)) v ++ replicate (Z.to_nat k) x.
Proof.
  intros Hk. unfold np_fill, slice_index.
  destruct (Z.ltb_spec (- k) 0); [|lia].
  destruct (Z.ltb_spec (len v) 0); [lia|].
  rewrite Z.max_r, Z.min_id by lia.
  replace (- k + len v) with (len v - k) by lia.
  replace (len v - (len v - k)) with k by lia.
  rewrite drop_ge by lia. by rewrite app_nil_r.
Qed.

Lemma py_int_eq_Z (x : Q) (z : Z) :
  0 <= z -> (x == inject_Z z)%Q -> py_int x = z.
Proof.
  intros Hz Hx. rewrite py_int_nonneg.
  - rewrite Hx. apply Qfloor_Z.
  - rewrite Hx. by apply inject_Z_nonneg.
Qed.

(** Padding after the data only, by a whole number of entries. *)
Lemma numpy_pad_after plot (after : Q) (k : Z) function :
  0 <= k -> (after == inject_Z k)%Q ->
  numpy_pad plot (0%Q, after) function
  = Some (function (plot ++ replicate (Z.to_nat k) zero) (0%Q, after)).
Proof.
  intros Hk Hafter. unfold numpy_pad. cbn [fst snd].
  assert (Hle : Qle_bool 0 after = true).
  { apply Qle_bool_iff. rewrite Hafter. by apply inject_Z_nonneg. }
  rewrite Hle. change (Qle_bool 0 0) with true. cbn [andb].
  change (py_int 0) with 0. change (Z.to_nat 0) with 0%nat.
  rewrite (py_int_eq_Z _ (len plot + k)); [|lia|].
  - rewrite take_0, Nat.add_0_l, drop_replicate. cbn [app].
    by replace (Z.to_nat (len plot + k) - length plot)%nat with (Z.to_nat k) by lia.
  - rewrite Hafter, inject_Z_plus. ring.
Qed.

Lemma padwithnone_samples v (w : Q * Q) :
  Forall is_sample v -> Forall is_sample (padwithnone v w).
Proof.
  intros Hv. unfold padwithnone. destruct (negb _); [|done].
  apply Forall_np_fill; [done|]. by apply Forall_np_fill.
Qed.

Lemma numpy_pad_samples plot (w : Q * Q) function data :
  (forall v, Forall is_sample v -> Forall is_sample (function v w)) ->
  Forall is_sample plot ->
  numpy_pad plot w function = Some data -> Forall is_sample data.
Proof.
  intros Hfun Hplot. unfold numpy_pad.
  destruct (_ && _); [|done]. intros [= <-].
  apply Hfun. rewrite !Forall_app. split_and!; [|done|].
  - apply Forall_take. by apply Forall_replicate.
  - apply Forall_drop. by apply Forall_replicate.
Qed.

End Padding.

Section StripData.

Variables (one_strip_time : Z) (f : Q).

Let S : Z := py_int (one_strip_length one_strip_time f).

(** The first strip of a page keeps its length; its first 125 entries
    are blanked. *)
Lemma strip_data_first (plot : list elem) :
  exists data,
    strip_data one_strip_time f 0 plot = Some data
    /\ data = np_fill plot 0 125 ENone
    /\ length data = length plot.
Proof.
  unfold strip_data. change (0 =? 0) with true. cbv iota.
  rewrite (numpy_pad_after plot 125 125) by (lia || reflexivity).
  cbn [mbind option_bind fst snd prepadwithnone].
  change (Qeq_bool 0 0) with true. change (Qeq_bool 125 0) with false.
  cbn [andb negb]. change (py_int 0) with 0. change (py_int 125) with 125.
  rewrite length_np_fill, length_app, length_replicate.
  replace (Z.of_nat (length plot + Z.to_nat 125) - 125) with (len plot) by lia.
  eexists. split; [reflexivity|].
  assert (Hdata : py_slice (np_fill (plot ++ replicate (Z.to_nat 125) zero) 0 125 ENone)
                    0 (len plot) = np_fill plot 0 125 ENone).
  { rewrite py_slice_nonneg by lia. rewrite drop_0, Z.sub_0_r, Nat2Z.id.
    unfold np_fill. rewrite !slice_index_nonneg by lia.
    rewrite length_app, length_replicate.
    rewrite (Z.min_l 0) by lia. rewrite (Z.min_l 0) by lia.
    rewrite (Z.min_l 125) by lia.
    change (Z.to_nat 0) with 0%nat. rewrite !take_0, !Nat.add_0_l, !Z.sub_0_r.
    cbn [app].
    destruct (Z.le_gt_cases 125 (len plot)) as [Hge|Hlt].
    - rewrite (Z.min_l 125) by lia.
      rewrite drop_app_le by lia.
      rewrite app_assoc, take_app_le
        by (rewrite length_app, length_replicate, length_drop; lia).
      apply take_ge. rewrite length_app, length_replicate, length_drop. lia.
    - rewrite (Z.min_r 125) by lia. rewrite Nat2Z.id.
      rewrite (drop_ge plot) by lia. rewrite app_nil_r.
      rewrite take_app_le by (rewrite length_replicate; lia).
      rewrite take_replicate. f_equal. lia. }
  rewrite Hdata. split; [done|]. apply length_np_fill.
Qed.


End StripData.

Lemma lookup_py_range (n : Z) (i : nat) (z : Z) :
  py_range n !! i = Some z -> z = Z.of_nat i /\ Z.of_nat i < n.
Proof.
  unfold py_range. intros H.
  apply list_lookup_fmap_Some in H as (k & -> & Hk).
  apply lookup_seq in Hk as [-> Hlt]. simpl. lia.
Qed.





(** * The whole function: failures before any work *)

(** Settle a closed decidable proposition by evaluation. *)
Ltac by_decide :=
  match goal with
  | |- ?P => apply (@bool_decide_unpack P _); vm_compute; exact I
  end.

Definition supported (export_to : string) : Prop :=
  export_to ∈ ["pdf"; "jpg"; "png"].

Section Failures.

Context (env : Env) (one_strip_time strips_per_page : Z).

Lemma for_range_fails (n : nat) (body : M unit) w s :
  body w = (inl s, w) -> for_range (Datatypes.S n) body w = (inl s, w).
Proof. intros H. simpl. by apply bind_inl. Qed.

(** An input that resolves to no list stops the run where it stands. *)
Lemma partition_record_unresolved ecg_data f w :
  resolved env w ecg_data = None ->
  exists s,
    partition_record env one_strip_time strips_per_page ecg_data f w = (inl s, w)
    /\ ((forall r, ecg_data <> VList r) ->
        if formats ecg_data then error_of s = Some InvalidInput
        else s = Uncaught "TypeError").
Proof.
  intros H. unfold partition_record.
  destruct ecg_data as [r| |p|n|]; simpl in H.
  - exists (Uncaught "dangling reference"). split; [|intros Hr; by destruct (Hr r)].
    erewrite bind_inr by reflexivity.
    apply bind_inl. apply for_range_fails.
    unfold list_insert0, list_update. by rewrite H.
  - exists Record_path_not_provided. split; [|done].
    apply bind_inl. by apply bind_inl.
  - destruct p as [|c p].
    + exists Record_path_not_provided. split; [|done].
      apply bind_inl. by apply bind_inl.
    + rewrite bool_decide_eq_false_2 in H by done.
      unfold get_ecg_data. cbn [formats negb].
      destruct (file_contents env (String c p)) as [txt|]; simpl in H.
      * destruct (literal_eval env txt) as [[l|]|] eqn:Hlit; simpl in H; [done| |];
          (exists Record_not_a_valid_list; split; [|done];
           apply bind_inl; by apply bind_inl).
      * exists Record_path_invalid. split; [|done].
        apply bind_inl. by apply bind_inl.
  - unfold get_ecg_data. destruct (formats (VTuple n)) eqn:Hfmt; cbn [negb].
    + exists Record_path_invalid. split; [|done].
      apply bind_inl. by apply bind_inl.
    + exists (Uncaught "TypeError"). split; [|done].
      apply bind_inl. by apply bind_inl.
  - exists Record_path_invalid. split; [|done].
    apply bind_inl. by apply bind_inl.
Qed.

End Failures.

Lemma unsupported_export_run env one_strip_time strips_per_page
    ecg_data output_dir output_file_name export_to meta kwargs w :
  ~ supported export_to ->
  generate_ecg_graph_with env one_strip_time strips_per_page
    ecg_data output_dir output_file_name export_to meta kwargs w
  = (inl Export_not_supported, w)
  /\ error_of Export_not_supported = Some UnsupportedExport.
Proof.
  intros H. unfold generate_ecg_graph_with, supported in *.
  by rewrite bool_decide_eq_false_2 by done.
Qed.

(** C7. An [export_to] outside pdf, jpg and png makes the run fail with
    [UnsupportedExport]: nothing is returned, no file is written, and the
    store is as it was. *)
Theorem unsupported_export_fails env one_strip_time strips_per_page
    ecg_data output_dir output_file_name export_to meta kwargs w :
  ~ supported export_to ->
  let run := generate_ecg_graph_with env one_strip_time strips_per_page
               ecg_data output_dir output_file_name export_to meta kwargs w in
  failed_with run = Some UnsupportedExport
  /\ returned run = None
  /\ run.2 = w.
Proof.
  intros H. cbv zeta.
  destruct (unsupported_export_run env one_strip_time strips_per_page
              ecg_data output_dir output_file_name export_to meta kwargs w H)
    as [-> _].
  done.
Qed.

Lemma unsupported_export_fails_witness :
  let w := caller_world [ENum 1] in
  let run := generate_ecg_graph strict_env (VList 1%positive) "/tmp/" "graph"
               "svg" ∅ None w in
  failed_with run = Some UnsupportedExport
  /\ returned run = None
  /\ events run.2 = [].
Proof.
  intros w run.
  destruct (unsupported_export_fails strict_env 8 4 (VList 1%positive)
              "/tmp/" "graph" "svg" ∅ None w) as (Hf & Hr & Hw).
  - unfold supported. by_decide.
  - split; [exact Hf|]. split; [exact Hr|].
    unfold run, generate_ecg_graph. by rewrite Hw.
Defined.

(** C8, as amended. When [ecg_data] is not a list and does not name a
    readable file holding a list literal, and the export format is
    supported, the run stops: nothing is returned, no file is written,
    the store is as it was. It stops with [InvalidInput], except for a
    tuple that does not hold exactly one item: formatting the debug
    message of line 47 then raises [TypeError], which nothing catches.
    (The items of a list are not examined.) *)
Theorem unresolved_input_fails env one_strip_time strips_per_page
    ecg_data output_dir output_file_name export_to meta kwargs w :
  supported export_to ->
  (forall r, ecg_data <> VList r) ->
  resolved env w ecg_data = None ->
  let run := generate_ecg_graph_with env one_strip_time strips_per_page
               ecg_data output_dir output_file_name export_to meta kwargs w in
  (if formats ecg_data
   then failed_with run = Some InvalidInput
   else run.1 = inl (Uncaught "TypeError"))
  /\ returned run = None
  /\ run.2 = w.
Proof.
  intros Hex Hlist Hres. unfold generate_ecg_graph_with, supported in *.
  rewrite bool_decide_eq_true_2 by done. cbn [negb].
  destruct (partition_record_unresolved env one_strip_time strips_per_page
              ecg_data (default default_frequency kwargs) w Hres)
    as (s & Hrun & Herr).
  erewrite bind_inl by exact Hrun.
  unfold failed_with, returned. cbn [fst snd].
  split; [|done]. specialize (Herr Hlist).
  destruct (formats ecg_data); [done|by rewrite Herr].
Qed.

Lemma unresolved_input_fails_witness :
  let w := caller_world [ENum 1] in
  let run := generate_ecg_graph strict_env (VStr "record.txt") "/tmp/" "graph"
               "pdf" ∅ None w in
  failed_with run = Some InvalidInput
  /\ returned run = None
  /\ run.2 = w.
Proof.
  apply (unresolved_input_fails strict_env 8 4 (VStr "record.txt")
           "/tmp/" "graph" "pdf" ∅ None (caller_world [ENum 1])).
  - unfold supported. by_decide.
  - intros r. discriminate.
  - reflexivity.
Defined.

(** * The plotting loop *)

(** The renderer's side of the contract: a time axis and a value axis of
    equal length, with every value numeric or missing, are drawn. *)
Definition renderer_accepts (env : Env) : Prop :=
  forall t data,
    length t = length data -> Forall is_sample data -> ax_plot env t data = true.

(** The grid's side: a cell within the rows asked for is handed out. *)
Definition subplot_accepts (env : Env) : Prop :=
  forall rows num, 1 <= num <= rows -> subplot env rows num = None.

(** A file system and a converter that do not fail. *)
Definition io_succeeds (env : Env) : Prop :=
  forall log op, io_error env log op = None.

(** The same collaborators, with a renderer that first refuses axes of
    different lengths, as [ax.plot] does. *)
Definition length_checked (env : Env) : Env := {|
  file_contents := file_contents env;
  literal_eval := literal_eval env;
  ax_plot := fun t data =>
    bool_decide (length t = length data) && ax_plot env t data;
  float_str := float_str env;
  subplot := subplot env;
  io_error := io_error env
|}.

Lemma strict_env_accepts : renderer_accepts strict_env.
Proof.
  intros t data Hlen Hdata. simpl.
  rewrite bool_decide_eq_true_2 by done. simpl.
  apply Is_true_true. by apply forallb_True.
Qed.

Lemma strict_env_subplot : subplot_accepts strict_env.
Proof.
  intros rows num Hnum. simpl.
  destruct (Z.leb_spec 1 num); [|lia].
  destruct (Z.leb_spec num rows); [done|lia].
Qed.

Lemma strict_env_io : io_succeeds strict_env.
Proof. done. Qed.

Section Plotting.

Context (env : Env) (one_strip_time : Z) (f : pynum).
Hypothesis Hf : (0 < f)%Q.

(** No time of the axis lies beyond the end of the strip. *)
Lemma py_div_step_le (nu n : Z) :
  0 <= nu < n -> (inject_Z nu * py_div 1 f <= py_div n f)%Q.
Proof.
  intros Hnu. destruct f as [k|x]; cbn [py_div num_val] in *.
  - assert (Hk : 1 <= k).
    { change 0%Q with (inject_Z 0) in Hf. rewrite <- Zlt_Qlt in Hf. lia. }
    rewrite <- inject_Z_mult, <- Zle_Qle.
    destruct (Z.eq_dec k 1) as [->|Hne].
    + rewrite !Z.div_1_r. lia.
    + rewrite (Z.div_small 1 k) by lia.
      pose proof (Z.div_pos n k ltac:(lia) ltac:(lia)). lia.
  - assert (Hle : (inject_Z nu <= inject_Z n)%Q) by (rewrite <- Zle_Qle; lia).
    pose proof (Qinv_lt_0_compat x Hf) as Hinv.
    unfold Qdiv. change (inject_Z 1) with 1%Q. revert Hle Hinv.
    generalize (inject_Z nu) (inject_Z n) (/ x)%Q. intros a b c Hab Hc.
    nra.
Qed.

Lemma length_nrange (start : Q) (n : Z) :
  length (nrange f start (start + py_div n f) n) = Z.to_nat n.
Proof.
  unfold nrange. rewrite forallb_filter_id.
  - by rewrite length_map, length_py_range.
  - apply forallb_forall. intros t Ht.
    apply in_map_iff in Ht as (nu & <- & Hnu).
    apply list_elem_of_In, elem_of_py_range in Hnu.
    apply Qle_bool_iff.
    pose proof (py_div_step_le nu n Hnu). lra.
Qed.

(** Every call of [ax.plot] gets axes of equal length. *)
Lemma plot_strips_length_checked rows strips (t0 : Q) :
  plot_strips (length_checked env) one_strip_time rows f strips t0 t0
  = plot_strips env one_strip_time rows f strips t0 t0.
Proof.
  revert t0. induction strips as [|[num plot] strips IH]; intros t0; [done|].
  simpl. destruct (strip_data one_strip_time f num plot) as [data|]; [|done].
  destruct (subplot env rows (num + 1)); [done|].
  rewrite length_nrange, Nat2Z.id, bool_decide_eq_true_2 by done. simpl.
  destruct (ax_plot env _ data); [apply IH|done].
Qed.

Lemma strip_data_samples (num : Z) (plot : list elem) :
  0 < one_strip_time ->
  len plot <= py_int (one_strip_length one_strip_time f) ->
  Forall is_sample plot ->
  exists data,
    strip_data one_strip_time f num plot = Some data /\ Forall is_sample data.
Proof.
  intros Htime Hlen Hplot.
  destruct (Z.eq_dec num 0) as [->|Hnum].
  - destruct (strip_data_first one_strip_time f plot) as (data & Hd & -> & _).
    eexists. split; [exact Hd|]. by apply Forall_np_fill.
  - unfold strip_data. destruct (Z.eqb_spec num 0); [done|].
    assert (Hle : Qle_bool 0 (one_strip_length one_strip_time f - inject_Z (len plot))
                  = true).
    { apply Qle_bool_iff.
      pose proof (py_int_strip_le one_strip_time Htime f Hf).
      assert (inject_Z (len plot)
              <= inject_Z (py_int (one_strip_length one_strip_time f)))%Q
        by (by rewrite <- Zle_Qle).
      lra. }
    destruct (numpy_pad plot _ padwithnone) as [data|] eqn:Hpad.
    + exists data. split; [done|].
      eapply (numpy_pad_samples plot _ padwithnone);
        [intros v; apply padwithnone_samples|exact Hplot|exact Hpad].
    + unfold numpy_pad in Hpad. cbn [fst snd] in Hpad.
      change (Qle_bool 0 0) with true in Hpad. by rewrite Hle in Hpad.
Qed.

Lemma plot_strips_ok rows strips (t0 : Q) :
  renderer_accepts env ->
  subplot_accepts env ->
  0 < one_strip_time ->
  (forall num plot, (num, plot) ∈ strips ->
     0 <= num < rows
     /\ len plot <= py_int (one_strip_length one_strip_time f)
     /\ Forall is_sample plot) ->
  plot_strips env one_strip_time rows f strips t0 t0 = inr tt.
Proof.
  intros Hacc Hsub Htime. revert t0.
  induction strips as [|[num plot] strips IH]; intros t0 Hall; [done|].
  destruct (Hall num plot ltac:(left)) as (Hnum & Hlen & Hplot).
  destruct (strip_data_samples num plot Htime Hlen Hplot) as (data & Hd & Hdata).
  simpl. rewrite Hd, Hsub by lia.
  rewrite Hacc; [|by rewrite length_nrange, Nat2Z.id|done].
  apply IH. intros num' plot' Hin. apply (Hall num'). by right.
Qed.

(** On samples, the [except] branch of the plot call is not taken. *)
Lemma plot_strips_no_plot_error rows strips (t0 : Q) :
  renderer_accepts env ->
  0 < one_strip_time ->
  (forall num plot, (num, plot) ∈ strips ->
     len plot <= py_int (one_strip_length one_strip_time f)
     /\ Forall is_sample plot) ->
  plot_strips env one_strip_time rows f strips t0 t0 <> inl Error_in_plotting.
Proof.
  intros Hacc Htime. revert t0.
  induction strips as [|[num plot] strips IH]; intros t0 Hall; [done|].
  destruct (Hall num plot ltac:(left)) as (Hlen & Hplot).
  destruct (strip_data_samples num plot Htime Hlen Hplot) as (data & Hd & Hdata).
  simpl. rewrite Hd.
  destruct (subplot env rows (num + 1)); [done|].
  rewrite Hacc; [|by rewrite length_nrange, Nat2Z.id|done].
  apply IH. intros num' plot' Hin. apply (Hall num'). by right.
Qed.

End Plotting.

(** * Files and processes *)

Section Performing.

Context (env : Env).

Lemma perform_inr op w x w' :
  perform env op w = (inr x, w') ->
  w' = World (heap w) (events w ++ logged op).
Proof.
  unfold perform. destruct (io_error env (events w) op); [done|].
  by intros [= _ <-].
Qed.

Lemma perform_inl op w s w' :
  perform env op w = (inl s, w') ->
  exists exn, s = Uncaught exn
    /\ w' = World (heap w) (events w ++ [Raised op exn]).
Proof.
  unfold perform. destruct (io_error env (events w) op) as [exn|]; [|done].
  intros [= <- <-]. by exists exn.
Qed.

Lemma perform_ok op w :
  io_succeeds env ->
  perform env op w = (inr tt, World (heap w) (events w ++ logged op)).
Proof. intros Hio. unfold perform. by rewrite Hio. Qed.

Lemma perform_heap op w : heap (perform env op w).2 = heap w.
Proof. unfold perform. by destruct (io_error env (events w) op). Qed.

(** A sequence of operations: the world it leaves when all went
    through. *)
Lemma bind_perform_inr {B} op (k : M B) w x w' :
  (perform env op ;;; k) w = (inr x, w') ->
  k (World (heap w) (events w ++ logged op)) = (inr x, w').
Proof.
  unfold bind. destruct (perform env op w) as [[s|[]] w1] eqn:Hop; [done|].
  apply perform_inr in Hop as ->. done.
Qed.

Lemma bind_perform_ok {B} op (k : M B) w :
  io_succeeds env ->
  (perform env op ;;; k) w = k (World (heap w) (events w ++ logged op)).
Proof. intros Hio. unfold bind. by rewrite perform_ok. Qed.

Lemma bind_perform_heap {B} op (k : M B) w :
  (forall w1, heap (k w1).2 = heap w1) ->
  heap ((perform env op ;;; k) w).2 = heap w.
Proof.
  intros Hk. unfold bind.
  pose proof (perform_heap op w) as Hop.
  destruct (perform env op w) as [[s|[]] w1]; [done|].
  cbn [snd] in Hop. by rewrite Hk.
Qed.

(** A sequence of operations that stops did so for an exception. *)
Lemma bind_perform_inl {B} op (k : M B) w s w' :
  (forall w1 s1 w2, k w1 = (inl s1, w2) -> error_of s1 = None) ->
  (perform env op ;;; k) w = (inl s, w') -> error_of s = None.
Proof.
  intros Hk. unfold bind.
  destruct (perform env op w) as [[s0|[]] w1] eqn:Hop.
  - apply perform_inl in Hop as (exn & -> & _). by intros [= <- _].
  - apply Hk.
Qed.

End Performing.

(** * The page loop *)

Section Pages.

Context (env : Env) (one_strip_time : Z).
Context (output_dir output_file_name export_to : string).
Context (rows : Z) (f : pynum).

(** The per-page drawing, and the one name every page is filed under. *)
Definition svg_name (seq : Z) : string :=
  output_dir +:+ str_int (seq + 1) +:+ ".svg".
Definition export_name : string :=
  output_dir +:+ output_file_name +:+ "." +:+ export_to.

(** The loop state and the world after page [seq] was drawn. *)
Definition page_done (acc : loop_state * world) (seq : Z) : loop_state * world :=
  ((<[seq + 1 := export_name]> acc.1.1, Some (svg_name seq)),
   World (heap acc.2)
     ((events acc.2 ++ [FileWritten (svg_name seq)])
        ++ [FileWritten (svg_name seq)])).

Definition pages_done (pages : list (Z * list elem)) (acc : loop_state * world)
  : loop_state * world :=
  foldl (fun acc p => page_done acc p.1) acc pages.

(** A page is drawn when it chunks and every strip is accepted. *)
Definition page_plots (rec : list elem) : Prop :=
  exists strips,
    chunks rec (py_int (one_strip_length one_strip_time f)) = Some strips
    /\ plot_strips env one_strip_time rows f (enumerate strips) 0 0 = inr tt.

(** A page that was drawn left the loop state and the world so. *)
Lemma plot_page_inv seq rec st w st' w' :
  plot_page env one_strip_time output_dir output_file_name export_to rows f
    seq rec st w = (inr st', w') ->
  (st', w') = page_done (st, w) seq.
Proof.
  unfold plot_page, lift_option. unfold bind at 1.
  destruct (chunks rec _) as [strips|]; [|done]. cbn [ret].
  destruct (plot_strips _ _ _ _ _ _ _); [done|].
  intros H. do 4 apply bind_perform_inr in H.
  injection H as <- <-. unfold page_done. cbn [heap events logged fst snd].
  by rewrite !app_nil_r.
Qed.

Lemma plot_page_ok seq rec st w :
  io_succeeds env ->
  page_plots rec ->
  plot_page env one_strip_time output_dir output_file_name export_to rows f
    seq rec st w
  = (inr (page_done (st, w) seq).1, (page_done (st, w) seq).2).
Proof.
  intros Hio (strips & Hchunks & Hplot).
  unfold plot_page, lift_option. unfold bind at 1.
  rewrite Hchunks. cbn [ret]. rewrite Hplot.
  rewrite !bind_perform_ok by done.
  unfold page_done, ret. cbn [heap events logged fst snd].
  by rewrite !app_nil_r.
Qed.

(** A page never changes a list. *)
Lemma plot_page_heap seq rec st w :
  heap (plot_page env one_strip_time output_dir output_file_name export_to
          rows f seq rec st w).2 = heap w.
Proof.
  unfold plot_page, lift_option. unfold bind at 1.
  destruct (chunks rec _) as [strips|]; [|done]. cbn [ret].
  destruct (plot_strips _ _ _ _ _ _ _); [done|].
  repeat (apply bind_perform_heap; intros ?). done.
Qed.

(** A page that stops at the plot error of line 251 has touched
    nothing; a page that stops for another reason before its first
    operation on a file has not either. *)
Lemma plot_page_stopped seq rec st w s w' :
  plot_page env one_strip_time output_dir output_file_name export_to rows f
    seq rec st w = (inl s, w') ->
  (chunks rec (py_int (one_strip_length one_strip_time f)) = None
   /\ s = Uncaught "ValueError" /\ w' = w)
  \/ (exists strips,
        chunks rec (py_int (one_strip_length one_strip_time f)) = Some strips
        /\ plot_strips env one_strip_time rows f (enumerate strips) 0 0 = inl s
        /\ w' = w)
  \/ (exists strips,
        chunks rec (py_int (one_strip_length one_strip_time f)) = Some strips
        /\ plot_strips env one_strip_time rows f (enumerate strips) 0 0 = inr tt
        /\ error_of s = None).
Proof.
  unfold plot_page, lift_option. unfold bind at 1.
  destruct (chunks rec _) as [strips|]; [|intros [= <- <-]; by left].
  cbn [ret].
  destruct (plot_strips _ _ _ _ _ _ _) as [s0|[]] eqn:Hplot.
  - intros [= <- <-]. right. left. by exists strips.
  - intros H. right. right. exists strips. split_and!; [done..|].
    revert H. repeat (apply bind_perform_inl; intros ? ? ?). done.
Qed.

Lemma plot_pages_inv pages st w st' w' :
  plot_pages env one_strip_time output_dir output_file_name export_to rows f
    pages st w = (inr st', w') ->
  (st', w') = pages_done pages (st, w).
Proof.
  revert st w. induction pages as [|[seq rec] pages IH]; intros st w H.
  - simpl in H. by injection H as <- <-.
  - simpl in H. unfold bind in H.
    destruct (plot_page _ _ _ _ _ _ _ seq rec st w) as [[s|st1] w1] eqn:Hpage;
      [done|].
    apply plot_page_inv in Hpage. apply IH in H. rewrite H.
    cbn [pages_done foldl fst]. by rewrite <- Hpage.
Qed.

Lemma plot_pages_ok pages st w :
  io_succeeds env ->
  (forall seq rec, (seq, rec) ∈ pages -> page_plots rec) ->
  plot_pages env one_strip_time output_dir output_file_name export_to rows f
    pages st w
  = (inr (pages_done pages (st, w)).1, (pages_done pages (st, w)).2).
Proof.
  intros Hio.
  revert st w. induction pages as [|[seq rec] pages IH]; intros st w Hall; [done|].
  simpl. unfold bind.
  rewrite (plot_page_ok seq rec st w Hio (Hall seq rec ltac:(left))).
  rewrite IH by (intros seq' rec' Hin; apply (Hall seq'); by right).
  reflexivity.
Qed.

(** The loop stops early only where a page does, and with its reason:
    the pages before it were drawn. *)
Lemma plot_pages_stops pages st w s w' :
  plot_pages env one_strip_time output_dir output_file_name export_to rows f
    pages st w = (inl s, w') ->
  exists done seq rec rest,
    pages = done ++ (seq, rec) :: rest
    /\ plot_page env one_strip_time output_dir output_file_name export_to rows f
         seq rec (pages_done done (st, w)).1 (pages_done done (st, w)).2
       = (inl s, w').
Proof.
  revert st w. induction pages as [|[seq rec] pages IH]; intros st w H; [done|].
  simpl in H. unfold bind in H.
  destruct (plot_page _ _ _ _ _ _ _ seq rec st w) as [[s0|st1] w1] eqn:Hpage.
  - injection H as <- <-. by exists [], seq, rec, pages.
  - apply plot_page_inv in Hpage.
    apply IH in H as (done & seq' & rec' & rest & -> & Hrun).
    exists ((seq, rec) :: done), seq', rec', rest. split; [done|].
    cbn [pages_done foldl fst]. by rewrite <- Hpage.
Qed.

Lemma pages_done_cons p pages acc :
  pages_done (p :: pages) acc = pages_done pages (page_done acc p.1).
Proof. done. Qed.

Lemma pages_done_heap pages acc : heap (pages_done pages acc).2 = heap acc.2.
Proof.
  revert acc. induction pages as [|p pages IH]; intros acc; [done|].
  rewrite pages_done_cons, IH. done.
Qed.

(** The page loop never changes a list. *)
Lemma plot_pages_heap pages st w :
  heap (plot_pages env one_strip_time output_dir output_file_name export_to
          rows f pages st w).2 = heap w.
Proof.
  destruct (plot_pages _ _ _ _ _ _ _ _ _ _) as [[s|st'] w'] eqn:H; cbn [snd].
  - apply plot_pages_stops in H as (done & seq & rec & rest & _ & H).
    pose proof (plot_page_heap seq rec (pages_done done (st, w)).1
                  (pages_done done (st, w)).2) as Hheap.
    rewrite H in Hheap. cbn [snd] in Hheap.
    by rewrite Hheap, pages_done_heap.
  - apply plot_pages_inv in H.
    apply (f_equal (fun x => heap x.2)) in H. cbn beta in H.
    cbn [snd] in H. by rewrite pages_done_heap in H.
Qed.

Lemma pages_done_name pages acc :
  pages <> [] -> is_Some (pages_done pages acc).1.2.
Proof.
  revert acc. induction pages as [|p pages IH]; intros acc Hne; [done|].
  rewrite pages_done_cons. destruct pages as [|p' pages]; [by eexists|].
  by apply IH.
Qed.

(** [output_files] after the loop: every page number drawn maps to the
    export name, and nothing else is touched. *)
Lemma pages_done_files pages acc (j : Z) :
  (pages_done pages acc).1.1 !! j
  = if bool_decide (j - 1 ∈ pages.*1) then Some export_name else acc.1.1 !! j.
Proof.
  revert acc. induction pages as [|p pages IH]; intros acc; [done|].
  rewrite pages_done_cons, IH. simpl.
  destruct (decide (j - 1 ∈ pages.*1)) as [Hin|Hnin].
  - rewrite !bool_decide_eq_true_2; [done|by right|done].
  - rewrite (bool_decide_eq_false_2 _ Hnin).
    destruct (decide (j - 1 = p.1)) as [Heq|Hne].
    + rewrite bool_decide_eq_true_2 by (rewrite Heq; left).
      replace j with (p.1 + 1) by lia. apply lookup_insert_eq.
    + rewrite bool_decide_eq_false_2.
      * apply lookup_insert_ne. lia.
      * intros Hin. apply elem_of_cons in Hin as [?|?]; done.
Qed.

End Pages.

Lemma elem_of_enumerate {A} (l : list A) (z : Z) (x : A) :
  (z, x) ∈ enumerate l -> 0 <= z < len l /\ x ∈ l.
Proof.
  unfold enumerate. intros H.
  apply list_elem_of_lookup in H as [i Hi].
  rewrite list_lookup_imap in Hi.
  destruct (l !! i) as [y|] eqn:Hy; simpl in Hi; [|done].
  injection Hi as <- <-. split.
  - apply lookup_lt_Some in Hy. lia.
  - by eapply list_elem_of_lookup_2.
Qed.

Lemma elem_of_enumerate_fst {A} (l : list A) (z : Z) :
  z ∈ (enumerate l).*1 <-> 0 <= z < len l.
Proof.
  split.
  - intros H. apply list_elem_of_fmap in H as ([z' x] & -> & Hin).
    by apply elem_of_enumerate in Hin as [? _].
  - intros Hz. apply list_elem_of_fmap.
    destruct (lookup_lt_is_Some_2 l (Z.to_nat z) ltac:(lia)) as [x Hx].
    exists (z, x). split; [done|].
    apply list_elem_of_lookup. exists (Z.to_nat z).
    unfold enumerate. rewrite list_lookup_imap, Hx. simpl.
    by rewrite Z2Nat.id by lia.
Qed.

(** * The whole function: runs that reach the page loop *)

(** The world once the composed page was written and converted, and the
    temporary files removed (lines 330-350). *)
Definition finished (w : world) (output_dir file_name : string) : world :=
  World (heap w)
    (events w
     ++ [FileWritten (output_dir +:+ "graph_page.svg");
         FileWritten (output_dir +:+ "/temp2.js");
         ProcessRun ["phantomjs"; output_dir +:+ "/temp2.js"];
         FileRemoved file_name;
         FileRemoved (output_dir +:+ "graph_page.svg");
         FileRemoved (output_dir +:+ "/temp2.js")]).

(** Lines 310-354: what [generate_ecg_graph_with] does after the page
    loop, with the metadata [m] it has built. *)
Definition finish (env : Env) (output_dir : string) (m : meta_data)
    (st : loop_state) : M meta_data :=
  perform env (OpResource "ecg_graph_template.svg");;;
  file_name <- lift_option "NameError" st.2;;
  let graph_page_svg_path := output_dir +:+ "graph_page.svg" in
  perform env (OpWrite graph_page_svg_path);;;
  let temp_phantom_js_path2 := output_dir +:+ "/temp2.js" in
  perform env (OpWrite temp_phantom_js_path2);;;
  perform env (OpResource "phantompdf.js");;;
  perform env (OpCall ["phantomjs"; temp_phantom_js_path2]);;;
  perform env (OpRemove file_name);;;
  perform env (OpRemove graph_page_svg_path);;;
  perform env (OpRemove temp_phantom_js_path2);;;
  ret m.

Section Finishing.

Context (env : Env) (output_dir : string) (m : meta_data).

Lemma finish_inv st w m' w' :
  finish env output_dir m st w = (inr m', w') ->
  m' = m /\ exists file_name,
    st.2 = Some file_name /\ w' = finished w output_dir file_name.
Proof.
  unfold finish. intros H. apply bind_perform_inr in H.
  unfold bind at 1 in H. destruct st.2 as [file_name|]; [|done].
  cbn [lift_option ret] in H.
  do 7 apply bind_perform_inr in H.
  injection H as <- <-. split; [done|]. exists file_name. split; [done|].
  unfold finished. cbn [heap events logged]. f_equal.
  rewrite !app_nil_r, <- !app_assoc. done.
Qed.

Lemma finish_ok st w file_name :
  io_succeeds env ->
  st.2 = Some file_name ->
  finish env output_dir m st w = (inr m, finished w output_dir file_name).
Proof.
  intros Hio Hname. unfold finish.
  rewrite bind_perform_ok by done.
  unfold bind at 1. rewrite Hname. cbn [lift_option ret].
  rewrite !bind_perform_ok by done.
  unfold finished, ret. cbn [heap events logged]. do 2 f_equal.
  rewrite !app_nil_r, <- !app_assoc. done.
Qed.

Lemma finish_heap st w : heap (finish env output_dir m st w).2 = heap w.
Proof.
  unfold finish. apply bind_perform_heap. intros w1.
  unfold bind at 1. destruct st.2 as [file_name|]; [|done].
  cbn [lift_option ret].
  repeat (apply bind_perform_heap; intros ?). done.
Qed.

(** After the page loop the function stops only for an exception. *)
Lemma finish_inl st w s w' :
  finish env output_dir m st w = (inl s, w') -> error_of s = None.
Proof.
  unfold finish. apply bind_perform_inl. intros w1 s1 w2.
  unfold bind at 1. destruct st.2 as [file_name|]; [|by intros [= <- _]].
  cbn [lift_option ret].
  repeat (apply bind_perform_inl; intros ? ? ?). done.
Qed.

End Finishing.

Section WholeRun.

Context (env : Env) (one_strip_time strips_per_page : Z).
Context (ecg_data : pyvalue) (output_dir output_file_name export_to : string).
Context (meta : gmap string disp) (kwargs : option pynum).

Let f : pynum := default default_frequency kwargs.

Hypotheses (Htime : 0 < one_strip_time) (Hpp : 0 < strips_per_page).
Hypothesis Hf : (0 < f)%Q.

(** The world handed to the page loop. *)
Definition partitioned (w : world) (l : list elem) : world :=
  World (<[(located w ecg_data l).1
           := padded_trace one_strip_time strips_per_page l f]>
           (heap (located w ecg_data l).2))
        (events (located w ecg_data l).2).

(** The metadata built from a trace and the [output_files] of the loop. *)
Definition metadata_of (l : list elem) (output_files : gmap Z string)
  : meta_data :=
  MetaData f plot_scale (len l + 125)
    (record_time (len l + 125) f) output_files
    (meta ∪ display_information env f (len l + 125)
              (record_time (len l + 125) f)).

Lemma generate_run w l :
  supported export_to ->
  resolved env w ecg_data = Some l ->
  exists record_list,
    partition (padded_trace one_strip_time strips_per_page l f)
      (page_count one_strip_time strips_per_page (len l + 125) f)
      = Some record_list
    /\ generate_ecg_graph_with env one_strip_time strips_per_page ecg_data
         output_dir output_file_name export_to meta kwargs w
       = match plot_pages env one_strip_time output_dir output_file_name
                 export_to
                 (subplot_rows one_strip_time strips_per_page (len l + 125) f)
                 f (enumerate record_list) (∅, None) (partitioned w l)
         with
         | (inl s, w3) => (inl s, w3)
         | (inr st, w3) => finish env output_dir (metadata_of l st.1) st w3
         end.
Proof.
  intros Hex Hres.
  destruct (partition_record_ok env one_strip_time strips_per_page ecg_data f
              w l Hres Htime Hpp Hf) as (record_list & Hpart & Hrun).
  exists record_list. split; [exact Hpart|].
  unfold generate_ecg_graph_with, supported in *.
  rewrite bool_decide_eq_true_2 by done. cbn [negb]. fold f.
  erewrite bind_inr by exact Hrun.
  unfold bind at 1. fold (partitioned w l).
  destruct (plot_pages _ _ _ _ _ _ _ _ _ _) as [[s|st] w3]; reflexivity.
Qed.

(** What a run that returns has returned, and the store it leaves. *)
Lemma generate_returned w l m w' :
  resolved env w ecg_data = Some l ->
  generate_ecg_graph_with env one_strip_time strips_per_page ecg_data
    output_dir output_file_name export_to meta kwargs w = (inr m, w') ->
  supported export_to
  /\ exists record_list,
       partition (padded_trace one_strip_time strips_per_page l f)
         (page_count one_strip_time strips_per_page (len l + 125) f)
         = Some record_list
       /\ m = MetaData f plot_scale (len l + 125)
                (record_time (len l + 125) f)
                (pages_done output_dir output_file_name export_to
                   (enumerate record_list) ((∅, None), partitioned w l)).1.1
                (meta ∪ display_information env f (len l + 125)
                          (record_time (len l + 125) f))
       /\ heap w' = heap (partitioned w l).
Proof.
  intros Hres Hrun.
  assert (Hex : supported export_to).
  { unfold supported. destruct (decide (export_to ∈ ["pdf"; "jpg"; "png"])); [done|].
    unfold generate_ecg_graph_with in Hrun.
    by rewrite bool_decide_eq_false_2 in Hrun by done. }
  split; [exact Hex|].
  destruct (generate_run w l Hex Hres) as (record_list & Hpart & Heq).
  exists record_list. split; [exact Hpart|].
  rewrite Heq in Hrun.
  destruct (plot_pages _ _ _ _ _ _ _ _ _ _) as [[s|st] w3] eqn:Hpages; [done|].
  apply plot_pages_inv in Hpages.
  apply finish_inv in Hrun as (-> & file_name & _ & ->).
  pose proof (f_equal (fun x => x.1.1) Hpages) as Hfiles.
  pose proof (f_equal (fun x => heap x.2) Hpages) as Hheap.
  cbn beta in Hfiles, Hheap. cbn [fst snd] in Hfiles, Hheap.
  rewrite pages_done_heap in Hheap.
  split; [unfold metadata_of; f_equal; exact Hfiles|exact Hheap].
Qed.

(** A page of samples that is cut into no more strips than the grid has
    rows is drawn by collaborators that keep their contracts. *)
Lemma page_plots_ok rows rec :
  renderer_accepts env ->
  subplot_accepts env ->
  1 <= py_int (one_strip_length one_strip_time f) ->
  len rec <= rows * py_int (one_strip_length one_strip_time f) ->
  Forall is_sample rec ->
  page_plots env one_strip_time rows f rec.
Proof.
  intros Hacc Hsub HS Hrows Hrec. eexists. split; [by apply chunks_eq|].
  apply plot_strips_ok; [done..|].
  intros num plot Hin. apply elem_of_enumerate in Hin as [Hnum Hin].
  rewrite length_map, length_py_range in Hnum.
  apply list_elem_of_fmap in Hin as (i & -> & Hi).
  apply elem_of_py_range in Hi. split_and!.
  - lia.
  - set (S := py_int (one_strip_length one_strip_time f)) in *.
    assert ((len rec + S - 1) / S < rows + 1); [|lia].
    apply Z.div_lt_upper_bound; nia.
  - etrans; [apply length_py_slice_le; lia|]. lia.
  - by apply Forall_py_slice.
Qed.

Lemma padded_trace_samples l :
  Forall is_sample l ->
  Forall is_sample (padded_trace one_strip_time strips_per_page l f).
Proof.
  intros Hl. unfold padded_trace. rewrite !Forall_app. split_and!; [|done|].
  - by apply Forall_replicate.
  - by apply Forall_replicate.
Qed.

Lemma partition_samples (l : list elem) n ps page :
  Forall is_sample l -> partition l n = Some ps -> page ∈ ps ->
  Forall is_sample page.
Proof.
  intros Hl Hps Hin. unfold partition in Hps.
  destruct (n =? 0); [done|]. injection Hps as <-.
  apply list_elem_of_fmap in Hin as (i & -> & _).
  by apply Forall_py_slice.
Qed.

(** On samples, with collaborators that keep their contracts, the run
    returns when a strip lasts a whole number of samples. *)
Lemma generate_succeeds w l :
  renderer_accepts env ->
  subplot_accepts env ->
  io_succeeds env ->
  supported export_to ->
  resolved env w ecg_data = Some l ->
  Forall is_sample l ->
  (inject_Z (py_int (one_strip_length one_strip_time f))
   == one_strip_length one_strip_time f)%Q ->
  exists m w',
    generate_ecg_graph_with env one_strip_time strips_per_page ecg_data
      output_dir output_file_name export_to meta kwargs w = (inr m, w').
Proof.
  intros Hacc Hsub Hio Hex Hres Hl Hint.
  destruct (generate_run w l Hex Hres) as (record_list & Hpart & ->).
  destruct (padded_length_full one_strip_time strips_per_page Htime Hpp
              (len l) f Hf ltac:(lia) Hint) as (HS & HP & _).
  rewrite plot_pages_ok; [|done|].
  - destruct (pages_done_name output_dir output_file_name export_to
                (enumerate record_list) ((∅, None), partitioned w l))
      as [file_name Hname].
    + destruct (partition_concat
                  (padded_trace one_strip_time strips_per_page l f) _ HP)
        as (ps & Hps & _ & Hlen).
      rewrite Hpart in Hps. injection Hps as <-.
      destruct record_list; [simpl in Hlen; lia|done].
    + erewrite finish_ok by done. by eexists _, _.
  - intros seq rec Hin. apply elem_of_enumerate in Hin as [_ Hin].
    apply page_plots_ok; [done..| |].
    + destruct (record_list_full one_strip_time strips_per_page Htime Hpp
                  l f record_list rec Hf Hint Hpart Hin) as [_ Hle].
      pose proof (subplot_rows_ge one_strip_time strips_per_page Htime Hpp
                    (len l + 125) f Hf ltac:(lia)).
      nia.
    + eapply partition_samples; [|exact Hpart|exact Hin].
      by apply padded_trace_samples.
Qed.

(** On samples, with a renderer that keeps its contract, no page stops
    for a plotting error. *)
Lemma plot_page_no_plot_error rows seq rec st w s w' :
  renderer_accepts env ->
  Forall is_sample rec ->
  plot_page env one_strip_time output_dir output_file_name export_to rows f
    seq rec st w = (inl s, w') ->
  error_of s <> Some RenderingFailure.
Proof.
  intros Hacc Hrec H.
  apply plot_page_stopped in H
    as [(_ & -> & _)|[(strips & Hchunks & Hplot & _)|(_ & _ & _ & ->)]];
    [done| |done].
  assert (HS : 1 <= py_int (one_strip_length one_strip_time f)).
  { pose proof (py_int_strip_nonneg one_strip_time Htime f Hf).
    destruct (Z.eq_dec (py_int (one_strip_length one_strip_time f)) 0)
      as [Hzero|]; [|lia].
    rewrite Hzero in Hchunks. done. }
  intros Herr.
  assert (s = Error_in_plotting) as -> by (by destruct s).
  revert Hplot. apply plot_strips_no_plot_error; [done..|].
  rewrite chunks_eq in Hchunks by done. injection Hchunks as <-.
  intros num plot Hin. apply elem_of_enumerate in Hin as [_ Hin].
  apply list_elem_of_fmap in Hin as (i & -> & Hi).
  apply elem_of_py_range in Hi. split.
  - etrans; [apply length_py_slice_le; lia|]. lia.
  - by apply Forall_py_slice.
Qed.

End WholeRun.

(** With the strict collaborators, the defaults and "pdf", a caller's
    list of samples always yields a result. *)
Lemma run_on_samples (l : list elem) :
  Forall is_sample l ->
  exists m w',
    generate_ecg_graph strict_env (VList 1%positive) "/tmp/" "graph" "pdf" ∅
      None (caller_world l) = (inr m, w').
Proof.
  intros Hl.
  apply (generate_succeeds strict_env 8 4 (VList 1%positive) "/tmp/" "graph"
           "pdf" ∅ None ltac:(lia) ltac:(lia) ltac:(reflexivity)
           (caller_world l) l strict_env_accepts strict_env_subplot
           strict_env_io).
  - unfold supported. by_decide.
  - reflexivity.
  - exact Hl.
  - reflexivity.
Qed.

(** C8, as stated, fails: a list whose items are not numbers is not
    rejected as invalid input. The run goes on to the renderer, which
    here refuses the first strip. *)
Lemma unchecked_items_not_invalid_input :
  let w := caller_world [EObj "'a'"] in
  let run := generate_ecg_graph strict_env (VList 1%positive) "/tmp/" "graph"
               "pdf" ∅ None w in
  resolved strict_env w (VList 1%positive) = Some [EObj "'a'"]
  /\ forallb is_sample [EObj "'a'"] = false
  /\ failed_with run = Some RenderingFailure
  /\ failed_with run <> Some InvalidInput.
Proof.
  split; [reflexivity|]. split; [reflexivity|].
  assert (H : failed_with
                (generate_ecg_graph strict_env (VList 1%positive) "/tmp/" "graph"
                   "pdf" ∅ None (caller_world [EObj "'a'"]))
              = Some RenderingFailure).
  { destruct (generate_run strict_env 8 4 (VList 1%positive) "/tmp/" "graph"
                "pdf" ∅ None ltac:(lia) ltac:(lia) ltac:(reflexivity)
                (caller_world [EObj "'a'"]) [EObj "'a'"])
      as (record_list & Hpart & Hrun);
      [unfold supported; by_decide|reflexivity|].
    unfold generate_ecg_graph. rewrite Hrun.
    vm_compute in Hpart. injection Hpart as <-.
    vm_compute. reflexivity. }
  split; [exact H|]. rewrite H. discriminate.
Qed.

(** * File names *)

Section Names.

Lemma length_append (a b : string) :
  String.length (a +:+ b) = (String.length a + String.length b)%nat.
Proof. induction a as [|c a IH]; simpl; [done|]. by rewrite IH. Qed.

Lemma append_inj_l (s a b : string) : s +:+ a = s +:+ b -> a = b.
Proof. induction s as [|c s IH]; simpl; [done|]. intros [= H]. by apply IH. Qed.

(** Two names that are equal end alike. *)
Lemma append_suffix_eq (a b s t : string) :
  a +:+ s = b +:+ t -> String.length s = String.length t -> s = t.
Proof.
  revert b. induction a as [|c a IH]; intros [|c' b] H Hlen.
  - done.
  - apply (f_equal String.length) in H.
    rewrite !length_append in H. simpl in H. lia.
  - apply (f_equal String.length) in H.
    rewrite !length_append in H. simpl in H. lia.
  - injection H as _ H. by apply (IH b).
Qed.

(** The export name is never the name of a per-page drawing. *)
Lemma export_name_not_svg (output_dir output_file_name export_to : string) (seq : Z) :
  supported export_to ->
  export_name output_dir output_file_name export_to <> svg_name output_dir seq.
Proof.
  unfold supported, export_name, svg_name. intros Hex H.
  apply append_inj_l in H.
  apply (append_suffix_eq _ _ ("." +:+ export_to) ".svg") in H.
  - repeat (apply elem_of_cons in Hex as [->|Hex]; [discriminate|]).
    by apply elem_of_nil in Hex.
  - repeat (apply elem_of_cons in Hex as [->|Hex]; [done|]).
    by apply elem_of_nil in Hex.
Qed.

End Names.

(** * The metadata *)

(** C4, as amended. The returned [record_time] is the original sample
    count over the sampling rate, as Python 2 divides them, rounded to
    the nearest whole second (halves away from zero): the 125 are taken
    off the count made after the prepend, not off the original count.
    With an [int] rate the quotient is floored before it is rounded;
    with a [float] rate it is the binary64 quotient. Neither the strip
    duration nor the strips per page enter the value. *)
Theorem record_time_of_original_count env one_strip_time strips_per_page
    ecg_data output_dir output_file_name export_to meta kwargs w l m w' :
  resolved env w ecg_data = Some l ->
  0 < one_strip_time -> 0 < strips_per_page ->
  (0 < default default_frequency kwargs)%Q ->
  generate_ecg_graph_with env one_strip_time strips_per_page ecg_data
    output_dir output_file_name export_to meta kwargs w = (inr m, w') ->
  md_record_time m
  = match default default_frequency kwargs with
    | PInt k => py_int (py_round (b64 (inject_Z (len l / k))))
    | PFloat x =>
        py_int (py_round (b64 (b64 (inject_Z (len l)) / b64 x)))
    end.
Proof.
  intros Hres Htime Hpp Hf Hrun.
  destruct (generate_returned env _ _ _ _ _ _ _ _ Htime Hpp Hf _ _ _ _ Hres Hrun)
    as (_ & record_list & _ & -> & _).
  cbn [md_record_time]. unfold record_time.
  by replace (len l + 125 - 125) with (len l) by lia.
Qed.

Lemma record_time_of_original_count_witness :
  exists m w',
    generate_ecg_graph strict_env (VList 1%positive) "/tmp/" "graph" "pdf" ∅
      (Some (PInt 2)) (caller_world [ENum 1; ENum 2; ENum 3])
    = (inr m, w')
    /\ md_record_time m = 1.
Proof.
  destruct (generate_ecg_graph strict_env (VList 1%positive) "/tmp/" "graph" "pdf" ∅
              (Some (PInt 2)) (caller_world [ENum 1; ENum 2; ENum 3]))
    as [[s|m] w'] eqn:Hrun.
  - exfalso. vm_compute in Hrun. discriminate.
  - exists m, w'. split; [reflexivity|].
    rewrite (record_time_of_original_count strict_env 8 4 (VList 1%positive)
               "/tmp/" "graph" "pdf" ∅ (Some (PInt 2))
               (caller_world [ENum 1; ENum 2; ENum 3])
               [ENum 1; ENum 2; ENum 3] m w').
    + vm_compute. reflexivity.
    + reflexivity.
    + lia.
    + lia.
    + reflexivity.
    + exact Hrun.
Defined.

(** Line 186 on the two kinds of rate. 200 samples at the [int] 250 take
    0 seconds, at the [float] 250.0 they take 1. 33 samples at 4.4 Hz
    take 7 seconds: the binary64 quotient lies just below the 7.5 of the
    exact one, which would round to 8. *)
Lemma record_time_by_kind :
  record_time (200 + 125) (PInt 250) = 0
  /\ record_time (200 + 125) (PFloat 250) = 1
  /\ record_time (33 + 125) (PFloat (44 # 10)) = 7
  /\ py_int (py_round (inject_Z 33 / (44 # 10))) = 8.
Proof. vm_compute. done. Qed.

(** [b64] on a few floats: 0.1 and 4.4 are the binary64 numbers Python
    prints so, a tie goes to the even significand, and a value that is a
    float already is left alone. *)
Lemma b64_by_example :
  b64 (1 # 10) = (3602879701896397 # 36028797018963968)%Q
  /\ b64 (44 # 10) = (2476979795053773 # 562949953421312)%Q
  /\ b64 (inject_Z (2 ^ 53 + 1)) = inject_Z (2 ^ 53)
  /\ b64 (inject_Z (2 ^ 53 + 3)) = inject_Z (2 ^ 53 + 4)
  /\ b64 (4001 # 16) = (4001 # 16)%Q.
Proof. vm_compute. done. Qed.

(** C4, as stated, fails: for 200 samples at 250.0 Hz the run returns
    1 second, while 125 off the original count would round to 0. *)
Lemma record_time_not_original_minus_125 :
  let l := replicate (Z.to_nat 200) (ENum 1) in
  (exists m w',
     generate_ecg_graph strict_env (VList 1%positive) "/tmp/" "graph" "pdf" ∅
       None (caller_world l) = (inr m, w')
     /\ md_record_time m = 1)
  /\ len l = 200
  /\ py_int (py_round (inject_Z (200 - 125) / 250)) = 0.
Proof.
  intros l. split; [|split; vm_compute; reflexivity].
  destruct (run_on_samples l) as (m & w' & Hrun);
    [by apply Forall_replicate|].
  exists m, w'. split; [exact Hrun|].
  destruct (generate_returned strict_env 8 4 (VList 1%positive) "/tmp/" "graph"
              "pdf" ∅ None ltac:(lia) ltac:(lia) ltac:(reflexivity)
              (caller_world l) l m w' ltac:(reflexivity) Hrun)
    as (_ & record_list & _ & -> & _).
  cbn [md_record_time]. vm_compute. reflexivity.
Qed.

(** The count reported is the one taken after the prepend. *)
Lemma signals_num_after_prepend env one_strip_time strips_per_page
    ecg_data output_dir output_file_name export_to meta kwargs w l m w' :
  resolved env w ecg_data = Some l ->
  0 < one_strip_time -> 0 < strips_per_page ->
  (0 < default default_frequency kwargs)%Q ->
  generate_ecg_graph_with env one_strip_time strips_per_page ecg_data
    output_dir output_file_name export_to meta kwargs w = (inr m, w') ->
  md_signals_num m = len l + 125.
Proof.
  intros Hres Htime Hpp Hf Hrun.
  by destruct (generate_returned env _ _ _ _ _ _ _ _ Htime Hpp Hf _ _ _ _ Hres Hrun)
    as (_ & record_list & _ & -> & _).
Qed.

(** C5. The code at the failing input: 2000 samples are passed in, and
    both [signals_num] and the "No. of signals" label say 2125, next to a
    duration of 8 seconds. *)
Lemma signals_num_counts_legend_gap :
  let l := replicate (Z.to_nat 2000) (ENum 1) in
  len l = 2000
  /\ exists m w',
       generate_ecg_graph strict_env (VList 1%positive) "/tmp/" "graph" "pdf" ∅
         None (caller_world l) = (inr m, w')
       /\ md_signals_num m = 2125
       /\ md_display_information m !! "No. of signals" = Some (DInt 2125)
       /\ md_record_time m = 8.
Proof.
  intros l. split; [vm_compute; reflexivity|].
  destruct (run_on_samples l) as (m & w' & Hrun);
    [by apply Forall_replicate|].
  exists m, w'. split; [exact Hrun|].
  destruct (generate_returned strict_env 8 4 (VList 1%positive) "/tmp/" "graph"
              "pdf" ∅ None ltac:(lia) ltac:(lia) ltac:(reflexivity)
              (caller_world l) l m w' ltac:(reflexivity) Hrun)
    as (_ & record_list & _ & -> & _).
  cbn [md_signals_num md_display_information md_record_time].
  split_and!; vm_compute; reflexivity.
Qed.

(** After a run that returns, the caller's list is the padded trace. *)
Lemma caller_list_after_run env one_strip_time strips_per_page
    r output_dir output_file_name export_to meta kwargs w l m w' :
  heap w !! r = Some l ->
  0 < one_strip_time -> 0 < strips_per_page ->
  (0 < default default_frequency kwargs)%Q ->
  generate_ecg_graph_with env one_strip_time strips_per_page (VList r)
    output_dir output_file_name export_to meta kwargs w = (inr m, w') ->
  heap w' !! r
  = Some (padded_trace one_strip_time strips_per_page l
            (default default_frequency kwargs)).
Proof.
  intros Hres Htime Hpp Hf Hrun.
  destruct (generate_returned env _ _ (VList r) _ _ _ _ _ Htime Hpp Hf _ _ _ _
              Hres Hrun) as (_ & record_list & _ & _ & ->).
  apply lookup_insert_eq.
Qed.

(** C6. The code at the failing input: the list the caller passed holds
    two samples before the run and 6127 items after it; a second run on
    the same list then reports 25 seconds where the first reported 0. *)
Lemma caller_list_is_mutated :
  let l := [ENum 1; ENum 2] in
  let padded := replicate (Z.to_nat 125) ENone ++ l
                ++ replicate (Z.to_nat 6000) ENone in
  exists m w' m2 w2,
    generate_ecg_graph strict_env (VList 1%positive) "/tmp/" "graph" "pdf" ∅
      None (caller_world l) = (inr m, w')
    /\ heap (caller_world l) !! 1%positive = Some l
    /\ heap w' !! 1%positive = Some padded
    /\ md_record_time m = 0
    /\ generate_ecg_graph strict_env (VList 1%positive) "/tmp/" "graph" "pdf" ∅
         None w' = (inr m2, w2)
    /\ md_record_time m2 = 25.
Proof.
  intros l padded.
  destruct (run_on_samples l) as (m & w' & Hrun); [by repeat constructor|].
  pose proof (caller_list_after_run strict_env 8 4 1%positive "/tmp/" "graph"
                "pdf" ∅ None (caller_world l) l m w' ltac:(reflexivity)
                ltac:(lia) ltac:(lia) ltac:(reflexivity) Hrun) as Hheap.
  assert (Hpadded : padded_trace 8 4 l (default default_frequency None) = padded)
    by (vm_compute; reflexivity).
  rewrite Hpadded in Hheap.
  assert (Hsamples : Forall is_sample padded).
  { unfold padded. rewrite !Forall_app. split_and!;
      [by apply Forall_replicate|by repeat constructor|by apply Forall_replicate]. }
  destruct (generate_succeeds strict_env 8 4 (VList 1%positive) "/tmp/" "graph"
              "pdf" ∅ None ltac:(lia) ltac:(lia) ltac:(reflexivity)
              w' padded strict_env_accepts strict_env_subplot strict_env_io
              ltac:(unfold supported; by_decide)
              Hheap Hsamples ltac:(reflexivity))
    as (m2 & w2 & Hagain).
  exists m, w', m2, w2.
  split; [exact Hrun|]. split; [reflexivity|]. split; [exact Hheap|].
  destruct (generate_returned strict_env 8 4 (VList 1%positive) "/tmp/" "graph"
              "pdf" ∅ None ltac:(lia) ltac:(lia) ltac:(reflexivity)
              (caller_world l) l m w' ltac:(reflexivity) Hrun)
    as (_ & record_list & _ & -> & _).
  split; [vm_compute; reflexivity|]. split; [exact Hagain|].
  destruct (generate_returned strict_env 8 4 (VList 1%positive) "/tmp/" "graph"
              "pdf" ∅ None ltac:(lia) ltac:(lia) ltac:(reflexivity)
              w' padded m2 w2 Hheap Hagain)
    as (_ & record_list2 & _ & -> & _).
  cbn [md_record_time]. vm_compute. reflexivity.
Qed.

(** C10. In the metadata of a run that returns, [output_files] maps
    every page number from 1 to the page count to one and the same name,
    [output_dir + output_file_name + '.' + export_to], and maps nothing
    else; no per-page drawing [output_dir + str(page) + '.svg'] is among
    its values, whatever the number of pages. *)
Theorem output_files_all_export_name env one_strip_time strips_per_page
    ecg_data output_dir output_file_name export_to meta kwargs w l m w' :
  resolved env w ecg_data = Some l ->
  0 < one_strip_time -> 0 < strips_per_page ->
  (0 < default default_frequency kwargs)%Q ->
  generate_ecg_graph_with env one_strip_time strips_per_page ecg_data
    output_dir output_file_name export_to meta kwargs w = (inr m, w') ->
  (forall i : Z,
     md_output_files m !! i
     = if bool_decide
            (1 <= i <= page_count one_strip_time strips_per_page (len l + 125)
                         (default default_frequency kwargs))
       then Some (output_dir +:+ output_file_name +:+ "." +:+ export_to)
       else None)
  /\ (forall i page : Z,
        md_output_files m !! i
        <> Some (output_dir +:+ str_int page +:+ ".svg")).
Proof.
  intros Hres Htime Hpp Hf Hrun.
  destruct (generate_returned env _ _ _ _ _ _ _ _ Htime Hpp Hf _ _ _ _ Hres Hrun)
    as (Hex & record_list & Hpart & -> & _).
  cbn [md_output_files].
  destruct (page_count_eq one_strip_time strips_per_page Htime Hpp
              (len l + 125) _ Hf ltac:(lia)) as [_ HP].
  destruct (partition_concat
              (padded_trace one_strip_time strips_per_page l
                 (default default_frequency kwargs)) _ HP)
    as (ps & Hps & _ & Hlen).
  rewrite Hpart in Hps. injection Hps as <-.
  assert (Hfiles : forall i : Z,
    (pages_done output_dir output_file_name export_to (enumerate record_list)
       (∅, None, partitioned one_strip_time strips_per_page ecg_data kwargs w l)).1.1
      !! i
    = if bool_decide
           (1 <= i <= page_count one_strip_time strips_per_page (len l + 125)
                        (default default_frequency kwargs))
      then Some (export_name output_dir output_file_name export_to)
      else None).
  { intros i. rewrite pages_done_files. cbn [fst]. rewrite lookup_empty.
    erewrite bool_decide_ext; [reflexivity|].
    rewrite elem_of_enumerate_fst. lia. }
  split.
  - exact Hfiles.
  - intros i page. rewrite Hfiles.
    destruct (bool_decide _); [|done].
    intros [= H].
    apply (export_name_not_svg output_dir output_file_name export_to (page - 1) Hex).
    unfold svg_name. by replace (page - 1 + 1) with page by lia.
Qed.

Lemma output_files_all_export_name_witness :
  exists m w',
    generate_ecg_graph strict_env (VList 1%positive) "/tmp/" "graph" "png" ∅
      (Some (PFloat 1)) (caller_world [ENum 1; ENum 2; ENum 3])
    = (inr m, w')
    /\ md_output_files m !! 1 = Some "/tmp/graph.png"
    /\ md_output_files m !! 4 = Some "/tmp/graph.png"
    /\ md_output_files m !! 5 = None
    /\ md_output_files m !! 1 <> Some "/tmp/1.svg".
Proof.
  destruct (generate_ecg_graph strict_env (VList 1%positive) "/tmp/" "graph" "png" ∅
              (Some (PFloat 1)) (caller_world [ENum 1; ENum 2; ENum 3]))
    as [[s|m] w'] eqn:Hrun.
  - exfalso. vm_compute in Hrun. discriminate.
  - exists m, w'. split; [reflexivity|].
    destruct (output_files_all_export_name strict_env 8 4 (VList 1%positive)
                "/tmp/" "graph" "png" ∅ (Some (PFloat 1))
                (caller_world [ENum 1; ENum 2; ENum 3])
                [ENum 1; ENum 2; ENum 3] m w')
      as [Hfiles Hsvg].
    + vm_compute. reflexivity.
    + lia.
    + lia.
    + reflexivity.
    + exact Hrun.
    + split_and!; [rewrite Hfiles; vm_compute; reflexivity..|].
      apply (Hsvg 1 1).
Defined.

(** * The time axis *)

Section LengthChecked.

Context (env : Env) (one_strip_time strips_per_page : Z).
Context (output_dir output_file_name export_to : string).
Context (rows : Z) (f : pynum).
Hypothesis Hf : (0 < f)%Q.

Lemma plot_page_length_checked seq rec st w :
  plot_page (length_checked env) one_strip_time output_dir output_file_name
    export_to rows f seq rec st w
  = plot_page env one_strip_time output_dir output_file_name
      export_to rows f seq rec st w.
Proof.
  unfold plot_page. apply bind_cong; [reflexivity|]. intros strips w1.
  by rewrite plot_strips_length_checked.
Qed.

Lemma plot_pages_length_checked pages st w :
  plot_pages (length_checked env) one_strip_time output_dir output_file_name
    export_to rows f pages st w
  = plot_pages env one_strip_time output_dir output_file_name
      export_to rows f pages st w.
Proof.
  revert st w. induction pages as [|[seq rec] pages IH]; intros st w; [done|].
  simpl. apply bind_cong; [apply plot_page_length_checked|].
  intros st1 w1. apply IH.
Qed.

End LengthChecked.

Lemma generate_length_checked env one_strip_time strips_per_page
    ecg_data output_dir output_file_name export_to meta kwargs w :
  (0 < default default_frequency kwargs)%Q ->
  generate_ecg_graph_with (length_checked env) one_strip_time strips_per_page
    ecg_data output_dir output_file_name export_to meta kwargs w
  = generate_ecg_graph_with env one_strip_time strips_per_page
      ecg_data output_dir output_file_name export_to meta kwargs w.
Proof.
  intros Hf. unfold generate_ecg_graph_with.
  destruct (negb _); [done|].
  apply bind_cong; [reflexivity|].
  intros [[r N] record_list] w1.
  apply bind_cong; [by apply plot_pages_length_checked|].
  reflexivity.
Qed.

(** C9. The time axis built for a strip is as long as the strip's value
    axis, so a renderer that also refuses axes of different lengths
    changes no run; and on samples, with a renderer that draws every
    equal-length pair of numeric-or-missing values, no run ends in
    [RenderingFailure]. *)
Theorem time_axis_matches_value_axis env one_strip_time strips_per_page
    ecg_data output_dir output_file_name export_to meta kwargs w l :
  0 < one_strip_time -> 0 < strips_per_page ->
  (0 < default default_frequency kwargs)%Q ->
  let f := default default_frequency kwargs in
  (forall (start : Q) (data : list elem),
     length (nrange f start (start + py_div (len data) f) (len data))
     = length data)
  /\ generate_ecg_graph_with (length_checked env) one_strip_time strips_per_page
       ecg_data output_dir output_file_name export_to meta kwargs w
     = generate_ecg_graph_with env one_strip_time strips_per_page
         ecg_data output_dir output_file_name export_to meta kwargs w
  /\ (renderer_accepts env ->
      resolved env w ecg_data = Some l ->
      Forall is_sample l ->
      failed_with
        (generate_ecg_graph_with env one_strip_time strips_per_page
           ecg_data output_dir output_file_name export_to meta kwargs w)
      <> Some RenderingFailure).
Proof.
  intros Htime Hpp Hf f. split_and!.
  - intros start data. rewrite length_nrange by done. lia.
  - by apply generate_length_checked.
  - intros Hacc Hres Hl.
    destruct (decide (supported export_to)) as [Hex|Hex].
    + destruct (generate_run env one_strip_time strips_per_page ecg_data
                  output_dir output_file_name export_to meta kwargs
                  Htime Hpp Hf w l Hex Hres) as (record_list & Hpart & ->).
      destruct (plot_pages _ _ _ _ _ _ _ _ _ _) as [[s|st] w3] eqn:Hpages.
      * apply plot_pages_stops in Hpages
          as (done & seq & rec & rest & Hsplit & Hpage).
        apply (plot_page_no_plot_error env one_strip_time output_dir
                 output_file_name export_to kwargs Htime Hf) in Hpage; [done|done|].
        eapply partition_samples;
          [by apply (padded_trace_samples one_strip_time strips_per_page kwargs)
          |exact Hpart|].
        apply (elem_of_enumerate record_list seq).
        rewrite Hsplit. apply elem_of_app. right. left.
      * destruct (finish _ _ _ _ _) as [[s|m] w4] eqn:Hfin; [|done].
        apply finish_inl in Hfin. unfold failed_with. cbn [fst].
        by rewrite Hfin.
    + destruct (unsupported_export_run env one_strip_time strips_per_page
                  ecg_data output_dir output_file_name export_to meta kwargs w Hex)
        as [-> _]. done.
Qed.

Lemma time_axis_matches_value_axis_witness :
  let w := caller_world [ENum 1; ENone; ENum 3] in
  length (nrange (PFloat 250) 0 (0 + py_div 3 (PFloat 250)) 3) = 3%nat
  /\ generate_ecg_graph (length_checked strict_env) (VList 1%positive) "/tmp/"
       "graph" "pdf" ∅ None w
     = generate_ecg_graph strict_env (VList 1%positive) "/tmp/" "graph" "pdf" ∅
         None w
  /\ failed_with
       (generate_ecg_graph strict_env (VList 1%positive) "/tmp/" "graph" "pdf" ∅
          None w)
     <> Some RenderingFailure.
Proof.
  intros w.
  destruct (time_axis_matches_value_axis strict_env 8 4 (VList 1%positive)
              "/tmp/" "graph" "pdf" ∅ None w [ENum 1; ENone; ENum 3])
    as (Hlen & Hsame & Hnever).
  - lia.
  - lia.
  - reflexivity.
  - split_and!.
    + exact (Hlen 0%Q [ENum 1; ENone; ENum 3]).
    + exact Hsame.
    + apply Hnever.
      * apply strict_env_accepts.
      * reflexivity.
      * by_decide.
Defined.

(** * More about [chunks] and [partition] *)

Section Shapes.

Context {A : Type}.
Implicit Types (l : list A) (n s : Z).

Lemma length_py_slice_clamped l a b :
  0 <= a -> a <= b -> a <= len l ->
  len (py_slice l a b) = Z.min b (len l) - a.
Proof.
  intros Ha Hab Hal. rewrite py_slice_nonneg by lia.
  rewrite length_take, length_drop. lia.
Qed.

(** X1. For a chunk size of at least one, [chunks] cuts a list into
    [ceil(len / n)] pieces that concatenate back to it; no piece is
    empty, none is longer than [n], and every piece but the last holds
    exactly [n] items. *)
Theorem chunks_shape l n :
  1 <= n ->
  exists cs,
    chunks l n = Some cs
    /\ concat cs = l
    /\ len cs = (len l + n - 1) / n
    /\ forall (i : nat) c, cs !! i = Some c ->
         1 <= len c <= n /\ (Z.of_nat i + 1 < len cs -> len c = n).
Proof.
  intros Hn. destruct (chunks_concat l n Hn) as (cs & Hcs & Hcat).
  exists cs. split; [exact Hcs|]. split; [exact Hcat|].
  rewrite chunks_eq in Hcs by done. injection Hcs as <-.
  set (m := (len l + n - 1) / n).
  assert (Hm0 : 0 <= m) by (apply Z.div_pos; lia).
  assert (Hm : (m - 1) * n < len l /\ len l <= m * n).
  { pose proof (Z.div_mod (len l + n - 1) n ltac:(lia)).
    pose proof (Z.mod_pos_bound (len l + n - 1) n ltac:(lia)).
    fold m in H. nia. }
  assert (Hlen : len (map (fun i => py_slice l (i * n) ((i + 1) * n)) (py_range m)) = m).
  { rewrite length_map, length_py_range. lia. }
  split; [exact Hlen|].
  intros i c Hi. rewrite Hlen.
  apply list_lookup_fmap_Some in Hi as (z & -> & Hz).
  apply lookup_py_range in Hz as [-> Hlt].
  assert (Z.of_nat i * n < len l) by nia.
  rewrite length_py_slice_clamped by nia.
  split; [nia|]. intros Hnext.
  assert ((Z.of_nat i + 1) * n <= len l) by nia. lia.
Qed.

End Shapes.

Lemma chunks_shape_witness :
  exists cs,
    chunks [1; 2; 3; 4; 5; 6; 7] 3 = Some cs
    /\ concat cs = [1; 2; 3; 4; 5; 6; 7]
    /\ len cs = 3
    /\ forall (i : nat) c, cs !! i = Some c ->
         1 <= len c <= 3 /\ (Z.of_nat i + 1 < len cs -> len c = 3).
Proof. apply (chunks_shape [1; 2; 3; 4; 5; 6; 7] 3). lia. Defined.

Section PartitionShape.

Context {A : Type}.
Implicit Types (l : list A) (n s : Z).

(** X2. For a positive page count [n], [partition] yields exactly [n]
    pages, in order and without gap or overlap, and it balances them:
    every page holds [floor(len / n)] or [ceil(len / n)] items. *)
Theorem partition_balanced l n :
  1 <= n ->
  exists ps,
    partition l n = Some ps
    /\ concat ps = l
    /\ len ps = n
    /\ forall page, page ∈ ps ->
         len l / n <= len page <= (len l + n - 1) / n.
Proof.
  intros Hn. destruct (partition_concat l n Hn) as (ps & Hps & Hcat & Hlen).
  exists ps. split_and!; [done..|].
  intros page Hin. split.
  - eapply (partition_page_length l n (len l / n) ps page); [done| | |done..].
    + apply Z.div_pos; lia.
    + apply Z.mul_div_le. lia.
  - eapply (partition_page_length_le l n _ ps page); [done| |done..].
    pose proof (Z.div_mod (len l + n - 1) n ltac:(lia)).
    pose proof (Z.mod_pos_bound (len l + n - 1) n ltac:(lia)).
    lia.
Qed.

End PartitionShape.

Lemma partition_balanced_witness :
  exists ps,
    partition [1; 2; 3; 4; 5; 6; 7] 2 = Some ps
    /\ concat ps = [1; 2; 3; 4; 5; 6; 7]
    /\ len ps = 2
    /\ forall page, page ∈ ps -> 7 / 2 <= len page <= (7 + 2 - 1) / 2.
Proof. apply (partition_balanced [1; 2; 3; 4; 5; 6; 7] 2). lia. Defined.

(** * More about the padding helpers *)

Section PadShapes.

Implicit Types (v plot : list elem).

Lemma np_fill_all v (x : elem) : np_fill v 0 (len v) x = replicate (length v) x.
Proof.
  unfold np_fill. rewrite !slice_index_nonneg by lia.
  rewrite Z.min_l, Z.min_id by lia.
  change (Z.to_nat 0) with 0%nat. rewrite take_0, Z.sub_0_r, Nat2Z.id, Nat.add_0_l.
  rewrite drop_all, app_nil_r. done.
Qed.

Lemma np_fill_prefix v (k : Z) (x : elem) :
  0 <= k ->
  np_fill v 0 k x
  = replicate (Z.to_nat (Z.min k (len v))) x ++ drop (Z.to_nat k) v.
Proof.
  intros Hk. unfold np_fill. rewrite !slice_index_nonneg by lia.
  rewrite (Z.min_l 0) by lia.
  change (Z.to_nat 0) with 0%nat. rewrite take_0, Z.sub_0_r, Nat.add_0_l.
  cbn [app]. f_equal.
  destruct (Z.le_gt_cases k (len v)).
  - by rewrite Z.min_l by lia.
  - rewrite Z.min_r by lia. rewrite !drop_ge by lia. done.
Qed.

(** X3. [padwithnone] never changes the length of the vector. With a
    width [(0, k)] it overwrites exactly the last [k] entries with the
    missing marker; with a width [(a, 0)], [a] not zero, the store
    [vector[-0:] = None] overwrites every entry. *)
Theorem padwithnone_shape v (a b : Q) :
  length (padwithnone v (a, b)) = length v
  /\ (forall k : Z, 0 < k <= len v ->
        padwithnone v (0%Q, inject_Z k)
        = take (Z.to_nat (len v - k)) v ++ replicate (Z.to_nat k) ENone)
  /\ (~ (a == 0)%Q ->
        padwithnone v (a, 0%Q) = replicate (length v) ENone).
Proof.
  split_and!.
  - unfold padwithnone. destruct (negb _); [|done].
    by rewrite !length_np_fill.
  - intros k Hk. unfold padwithnone. cbn [fst snd].
    change (Qeq_bool 0 0) with true. cbn [andb].
    assert (Hnz : Qeq_bool (inject_Z k) 0 = false).
    { apply not_true_is_false. intros Hz. apply Qeq_bool_iff in Hz.
      change 0%Q with (inject_Z 0) in Hz.
      assert (k = 0) by (by apply inject_Z_injective). lia. }
    rewrite Hnz. cbn [negb]. change (py_int 0) with 0.
    rewrite np_fill_nothing, py_int_inject_Z. by apply np_fill_tail.
  - intros Ha. unfold padwithnone. cbn [fst snd].
    assert (Hnz : Qeq_bool a 0 = false).
    { apply not_true_is_false. intros Hz. by apply Qeq_bool_iff in Hz. }
    rewrite Hnz. cbn [andb negb]. change (py_int 0) with 0.
    change (- 0) with 0. rewrite np_fill_all. by rewrite length_np_fill.
Qed.

End PadShapes.

Lemma padwithnone_shape_witness :
  padwithnone [ENum 1; ENum 2; ENum 3] (0%Q, inject_Z 2) = [ENum 1; ENone; ENone]
  /\ padwithnone [ENum 1; ENum 2; ENum 3] (1%Q, 0%Q) = [ENone; ENone; ENone].
Proof.
  destruct (padwithnone_shape [ENum 1; ENum 2; ENum 3] 1 0) as (_ & Hlast & Hall).
  split.
  - apply (Hlast 2). simpl. lia.
  - apply Hall. vm_compute. discriminate.
Defined.

(** X4. On every page, the array handed to the renderer for the first
    strip is the page's first chunk with its first 125 items replaced by
    missing markers, whatever they were (all of the chunk when it holds
    fewer than 125). *)
Theorem first_strip_blanked one_strip_time f (page : list elem) :
  1 <= py_int (one_strip_length one_strip_time f) ->
  page <> [] ->
  exists strips plot,
    chunks page (py_int (one_strip_length one_strip_time f)) = Some strips
    /\ strips !! 0%nat = Some plot
    /\ plot = take (Z.to_nat (py_int (one_strip_length one_strip_time f))) page
    /\ strip_data one_strip_time f 0 plot
       = Some (replicate (Z.to_nat (Z.min 125 (len plot))) ENone
               ++ drop 125 plot).
Proof.
  intros HS Hpage.
  set (S := py_int (one_strip_length one_strip_time f)) in *.
  assert (Hlen : 1 <= len page) by (destruct page; [done|simpl; lia]).
  eexists _, (take (Z.to_nat S) page). split; [by apply chunks_eq|].
  split.
  - assert (Hm : 1 <= (len page + S - 1) / S)
      by (apply Z.div_le_lower_bound; lia).
    unfold py_range.
    destruct (Z.to_nat ((len page + S - 1) / S)) as [|m] eqn:Hnat; [lia|].
    simpl. f_equal. rewrite py_slice_nonneg by lia.
    change (Z.to_nat 0) with 0%nat. rewrite drop_0. f_equal. lia.
  - split; [done|].
    destruct (strip_data_first one_strip_time f (take (Z.to_nat S) page))
      as (data & -> & -> & _).
    f_equal. by rewrite np_fill_prefix by lia.
Qed.

Lemma first_strip_blanked_witness :
  exists strips plot,
    chunks [ENum 1; ENum 2; ENum 3] (py_int (one_strip_length 8 (1 # 4))) = Some strips
    /\ strips !! 0%nat = Some plot
    /\ plot = take (Z.to_nat (py_int (one_strip_length 8 (1 # 4))))
                [ENum 1; ENum 2; ENum 3]
    /\ strip_data 8 (1 # 4) 0 plot
       = Some (replicate (Z.to_nat (Z.min 125 (len plot))) ENone ++ drop 125 plot).
Proof.
  apply (first_strip_blanked 8 (1 # 4) [ENum 1; ENum 2; ENum 3]).
  - vm_compute. discriminate.
  - discriminate.
Defined.

(** * Pages are full *)

Section AllStrips.

Context (env : Env) (one_strip_time strips_per_page : Z).

(** X5. When a strip lasts a whole number of samples, every page of the
    partition is cut into exactly [strips_per_page] strips, so the run
    draws as many strips as it counted: the raw ones plus the padding. *)
Theorem pages_hold_all_strips ecg_data f w l :
  resolved env w ecg_data = Some l ->
  0 < one_strip_time -> 0 < strips_per_page -> (0 < f)%Q ->
  (inject_Z (py_int (one_strip_length one_strip_time f))
   == one_strip_length one_strip_time f)%Q ->
  exists r record_list w',
    partition_record env one_strip_time strips_per_page ecg_data f w
      = (inr (r, len l + 125, record_list), w')
    /\ len record_list * strips_per_page
       = no_of_strips one_strip_time (len l + 125) f
         + extra_strips_needed strips_per_page
             (no_of_strips one_strip_time (len l + 125) f)
    /\ forall page, page ∈ record_list ->
       exists strips,
         chunks page (py_int (one_strip_length one_strip_time f)) = Some strips
         /\ len strips = strips_per_page.
Proof.
  intros Hres Htime Hpp Hf Hint.
  destruct (partition_record_ok env _ _ _ _ _ _ Hres Htime Hpp Hf)
    as (record_list & Hpart & Hrun).
  destruct (padded_length_full one_strip_time strips_per_page Htime Hpp
              (len l) f Hf ltac:(lia) Hint) as (HS & HP & _).
  eexists _, record_list, _. split; [exact Hrun|]. split.
  - destruct (page_count_eq one_strip_time strips_per_page Htime Hpp
                (len l + 125) f Hf ltac:(lia)) as [Hsum _].
    destruct (partition_concat
                (padded_trace one_strip_time strips_per_page l f) _ HP)
      as (ps & Hps & _ & Hlen).
    rewrite Hpart in Hps. injection Hps as <-. cbv zeta in Hsum. lia.
  - intros page Hin.
    apply (full_page_chunks strips_per_page); [done..|].
    by apply (record_list_full one_strip_time strips_per_page Htime Hpp
                l f record_list).
Qed.

End AllStrips.

Lemma pages_hold_all_strips_witness :
  exists r record_list w',
    partition_record strict_env 8 4 (VList 1%positive) 250
        (caller_world [ENum 1; ENum 2])
      = (inr (r, 127, record_list), w')
    /\ len record_list * 4
       = no_of_strips 8 127 250 + extra_strips_needed 4 (no_of_strips 8 127 250)
    /\ forall page, page ∈ record_list ->
       exists strips, chunks page 2000 = Some strips /\ len strips = 4.
Proof.
  apply (pages_hold_all_strips strict_env 8 4 (VList 1%positive) 250
           (caller_world [ENum 1; ENum 2]) [ENum 1; ENum 2]).
  - reflexivity.
  - lia.
  - lia.
  - reflexivity.
  - reflexivity.
Defined.

(** * Reading the record *)

(** X6. [get_ecg_data] hands back a list exactly when its argument is a
    non-empty path to a readable file whose text is a list literal, and
    then it is that list. In every other case it stops: with an
    invalid-input message, except for a tuple that does not hold exactly
    one item, for which the debug message of line 47 raises [TypeError].
    It never touches the store or the files. *)
Theorem get_ecg_data_resolves env (record_path : pyvalue) (w : world) :
  (forall r, record_path <> VList r) ->
  (get_ecg_data env record_path w).2 = w
  /\ (forall l, (get_ecg_data env record_path w).1 = inr l
               <-> resolved env w record_path = Some l)
  /\ (forall s, (get_ecg_data env record_path w).1 = inl s ->
               resolved env w record_path = None
               /\ if formats record_path
                  then error_of s = Some InvalidInput
                  else s = Uncaught "TypeError").
Proof.
  intros Hlist. destruct record_path as [r| |p|n|]; [by destruct (Hlist r)|..].
  - split_and!; [done| |]; simpl.
    + intros l. split; discriminate.
    + by intros s [= <-].
  - destruct p as [|c p].
    + split_and!; [done| |]; simpl.
      * intros l. split; discriminate.
      * by intros s [= <-].
    + unfold get_ecg_data, resolved. cbn [formats negb].
      rewrite bool_decide_eq_false_2 by done.
      destruct (file_contents env (String c p)) as [txt|]; simpl.
      * destruct (literal_eval env txt) as [[l'|]|]; simpl.
        -- split_and!; [done| |discriminate].
           intros l. split; intros [= <-]; done.
        -- split_and!; [done| |by intros s [= <-]].
           intros l. split; discriminate.
        -- split_and!; [done| |by intros s [= <-]].
           intros l. split; discriminate.
      * split_and!; [done| |by intros s [= <-]].
        intros l. split; discriminate.
  - unfold get_ecg_data. destruct (formats (VTuple n)); cbn [negb].
    + split_and!; [done| |]; simpl.
      * intros l. split; discriminate.
      * by intros s [= <-].
    + split_and!; [done| |]; simpl.
      * intros l. split; discriminate.
      * by intros s [= <-].
  - split_and!; [done| |]; simpl.
    + intros l. split; discriminate.
    + by intros s [= <-].
Qed.

(** Collaborators with one file that holds a list literal. *)
Definition record_file_env : Env := {|
  file_contents := fun p =>
    if String.eqb p "record.txt" then Some "[1.0, None]" else None;
  literal_eval := fun txt =>
    if String.eqb txt "[1.0, None]" then Some (LitList [ENum 1; ENone]) else None;
  ax_plot := ax_plot strict_env;
  float_str := float_str strict_env;
  subplot := subplot strict_env;
  io_error := io_error strict_env
|}.

Lemma get_ecg_data_resolves_witness :
  get_ecg_data record_file_env (VStr "record.txt") (caller_world [])
  = (inr [ENum 1; ENone], caller_world []).
Proof.
  destruct (get_ecg_data_resolves record_file_env (VStr "record.txt")
              (caller_world [])) as (Hw & Hl & _).
  - intros r. discriminate.
  - destruct (get_ecg_data record_file_env (VStr "record.txt") (caller_world []))
      as [res w'] eqn:Hrun.
    simpl in Hw. subst w'. f_equal.
    apply Hl. reflexivity.
Defined.

(** * The effects of a run *)

Section PageEffects.

Context (output_dir output_file_name export_to : string).

(** What drawing page [seq] writes: the figure, then the merged page. *)
Definition page_writes (seq : Z) : list fs_event :=
  [FileWritten (svg_name output_dir seq); FileWritten (svg_name output_dir seq)].

Lemma pages_done_events pages acc :
  events (pages_done output_dir output_file_name export_to pages acc).2
  = events acc.2 ++ concat (map (fun p => page_writes p.1) pages).
Proof.
  revert acc. induction pages as [|p pages IH]; intros acc.
  - simpl. by rewrite app_nil_r.
  - rewrite pages_done_cons, IH. simpl. by rewrite <- !app_assoc.
Qed.

Lemma pages_done_last_name pages acc :
  (pages_done output_dir output_file_name export_to pages acc).1.2
  = match last pages with
    | Some p => Some (svg_name output_dir p.1)
    | None => acc.1.2
    end.
Proof.
  revert acc. induction pages as [|p pages IH]; intros acc; [done|].
  rewrite pages_done_cons, IH.
  destruct pages as [|p' pages]; [done|].
  rewrite last_cons_cons.
  destruct (last (p' :: pages)) eqn:Hlast; [done|].
  by apply last_None in Hlast.
Qed.

End PageEffects.

Lemma enumerate_fst_range_from {A} (l : list A) (k : nat) :
  (imap (fun i x => (Z.of_nat (k + i), x)) l).*1
  = map Z.of_nat (seq k (length l)).
Proof.
  revert k. induction l as [|x l IH]; intros k; [done|].
  rewrite imap_cons. simpl. rewrite Nat.add_0_r. f_equal.
  rewrite <- IH. f_equal. apply imap_ext. intros i y _. simpl.
  by replace (k + S i)%nat with (S k + i)%nat by lia.
Qed.

Lemma enumerate_fst_range {A} (l : list A) :
  (enumerate l).*1 = py_range (len l).
Proof.
  unfold enumerate, py_range. rewrite Nat2Z.id.
  apply (enumerate_fst_range_from l 0).
Qed.

Lemma enumerate_last {A} (l : list A) :
  l <> [] -> fst <$> last (enumerate l) = Some (len l - 1).
Proof.
  intros Hl. rewrite <- fmap_last, enumerate_fst_range.
  unfold py_range. rewrite Nat2Z.id.
  destruct l as [|x l]; [done|]. clear Hl.
  cbn [length]. rewrite seq_S, map_app. simpl.
  rewrite last_snoc. f_equal. lia.
Qed.

Section RunEffects.

Context (env : Env) (one_strip_time strips_per_page : Z).
Context (ecg_data : pyvalue) (output_dir output_file_name export_to : string).
Context (meta : gmap string disp) (kwargs : option pynum).

Let f : pynum := default default_frequency kwargs.

Hypotheses (Htime : 0 < one_strip_time) (Hpp : 0 < strips_per_page).
Hypothesis Hf : (0 < f)%Q.

Lemma located_events w l : events (located w ecg_data l).2 = events w.
Proof. by destruct ecg_data. Qed.

(** The pages a resolvable input is partitioned into. *)
Lemma record_list_length (l : list elem) record_list :
  partition (padded_trace one_strip_time strips_per_page l f)
    (page_count one_strip_time strips_per_page (len l + 125) f)
    = Some record_list ->
  len record_list = page_count one_strip_time strips_per_page (len l + 125) f
  /\ record_list <> [].
Proof.
  intros Hpart.
  destruct (page_count_eq one_strip_time strips_per_page Htime Hpp
              (len l + 125) f Hf ltac:(lia)) as [_ HP].
  destruct (partition_concat
              (padded_trace one_strip_time strips_per_page l f) _ HP)
    as (ps & Hps & _ & Hlen).
  rewrite Hpart in Hps. injection Hps as <-. split; [done|].
  intros ->. simpl in Hlen. lia.
Qed.

(** The world a returning run leaves. *)
Lemma generate_returned_world w l m w' :
  resolved env w ecg_data = Some l ->
  generate_ecg_graph_with env one_strip_time strips_per_page ecg_data
    output_dir output_file_name export_to meta kwargs w = (inr m, w') ->
  let P := page_count one_strip_time strips_per_page (len l + 125) f in
  heap w' = heap (partitioned one_strip_time strips_per_page ecg_data kwargs w l)
  /\ events w'
     = events w
       ++ concat (map (page_writes output_dir) (py_range P))
       ++ [FileWritten (output_dir +:+ "graph_page.svg");
           FileWritten (output_dir +:+ "/temp2.js");
           ProcessRun ["phantomjs"; output_dir +:+ "/temp2.js"];
           FileRemoved (svg_name output_dir (P - 1));
           FileRemoved (output_dir +:+ "graph_page.svg");
           FileRemoved (output_dir +:+ "/temp2.js")].
Proof.
  intros Hres Hrun P.
  destruct (generate_returned env one_strip_time strips_per_page ecg_data
              output_dir output_file_name export_to meta kwargs Htime Hpp Hf
              w l m w' Hres Hrun) as (Hex & _ & _ & _ & Hheap).
  split; [exact Hheap|].
  destruct (generate_run env one_strip_time strips_per_page ecg_data
              output_dir output_file_name export_to meta kwargs Htime Hpp Hf
              w l Hex Hres) as (record_list & Hpart & Heq).
  destruct (record_list_length l record_list Hpart) as [Hlen Hne].
  rewrite Heq in Hrun.
  destruct (plot_pages _ _ _ _ _ _ _ _ _ _) as [[s|st] w3] eqn:Hpages; [done|].
  apply plot_pages_inv in Hpages.
  apply finish_inv in Hrun as (_ & file_name & Hst & ->).
  pose proof (f_equal (fun x => x.1.2) Hpages) as Hname.
  pose proof (f_equal (fun x => events x.2) Hpages) as Hev.
  cbn beta in Hname, Hev. cbn [fst snd] in Hname, Hev.
  rewrite pages_done_last_name in Hname.
  rewrite pages_done_events in Hev. cbn [snd] in Hev.
  pose proof (enumerate_last record_list Hne) as Hlast.
  destruct (last (enumerate record_list)) as [[z rec]|]; [|done].
  injection Hlast as ->. cbn [fst] in Hname.
  rewrite Hst in Hname. injection Hname as ->.
  unfold finished. cbn [events].
  rewrite Hev. unfold partitioned. cbn [events].
  rewrite located_events, <- !app_assoc. f_equal.
  rewrite <- (map_map fst (page_writes output_dir)).
  change (map fst (enumerate record_list)) with ((enumerate record_list).*1).
  rewrite enumerate_fst_range, Hlen. fold P. reflexivity.
Qed.

End RunEffects.

(** * More about file names *)

Section MoreNames.

Lemma append_inj_r (a b s : string) : a +:+ s = b +:+ s -> a = b.
Proof.
  revert b. induction a as [|c a IH]; intros [|c' b] H.
  - done.
  - apply (f_equal String.length) in H.
    rewrite !length_append in H. simpl in H. lia.
  - apply (f_equal String.length) in H.
    rewrite !length_append in H. simpl in H. lia.
  - injection H as -> H. f_equal. by apply IH.
Qed.

(** [str] of a positive [int] reads back as that [int]. *)
Lemma str_int_parses (z : Z) :
  0 < z -> NilZero.int_of_string (str_int z) = Some (Z.to_int z).
Proof.
  intros Hz. unfold str_int. apply NilZero.isi.
  - destruct z as [|p|p]; try lia. simpl. intros [= H].
    by apply (DecimalPos.Unsigned.to_uint_nonnil p).
  - destruct z as [|p|p]; try lia. done.
Qed.

Lemma str_int_inj (a b : Z) : 0 < a -> 0 < b -> str_int a = str_int b -> a = b.
Proof.
  intros Ha Hb H. apply (f_equal NilZero.int_of_string) in H.
  rewrite !str_int_parses in H by done.
  injection H as H. by apply DecimalZ.to_int_inj.
Qed.

Lemma svg_name_inj (output_dir : string) (i j : Z) :
  0 <= i -> 0 <= j -> svg_name output_dir i = svg_name output_dir j -> i = j.
Proof.
  unfold svg_name. intros Hi Hj H.
  apply append_inj_l, append_inj_r, str_int_inj in H; lia.
Qed.

Lemma svg_name_not_graph_page (output_dir : string) (i : Z) :
  0 <= i -> svg_name output_dir i <> output_dir +:+ "graph_page.svg".
Proof.
  unfold svg_name. intros Hi H. apply append_inj_l in H.
  change "graph_page.svg" with ("graph_page" +:+ ".svg") in H.
  apply append_inj_r in H.
  apply (f_equal NilZero.int_of_string) in H.
  rewrite str_int_parses in H by lia. discriminate.
Qed.

Lemma svg_name_not_temp (output_dir : string) (i : Z) :
  svg_name output_dir i <> output_dir +:+ "/temp2.js".
Proof.
  unfold svg_name. intros H. apply append_inj_l in H.
  change "/temp2.js" with ("/temp" +:+ "2.js") in H.
  by apply (append_suffix_eq _ _ ".svg" "2.js") in H.
Qed.

End MoreNames.

(** * What a run leaves behind *)

(** X7. A run that returns has, in this order: written each page's
    drawing twice (the figure, then the page merged with the grid),
    written [graph_page.svg] and [/temp2.js], run [phantomjs] on the
    latter, and removed the last page's drawing, [graph_page.svg] and
    [/temp2.js]. It has done nothing else to the files. *)
Theorem run_event_log env one_strip_time strips_per_page
    ecg_data output_dir output_file_name export_to meta kwargs w l m w' :
  resolved env w ecg_data = Some l ->
  0 < one_strip_time -> 0 < strips_per_page ->
  (0 < default default_frequency kwargs)%Q ->
  generate_ecg_graph_with env one_strip_time strips_per_page ecg_data
    output_dir output_file_name export_to meta kwargs w = (inr m, w') ->
  let P := page_count one_strip_time strips_per_page (len l + 125)
             (default default_frequency kwargs) in
  events w'
  = events w
    ++ concat (map (fun seq =>
                      [FileWritten (output_dir +:+ str_int (seq + 1) +:+ ".svg");
                       FileWritten (output_dir +:+ str_int (seq + 1) +:+ ".svg")])
                   (py_range P))
    ++ [FileWritten (output_dir +:+ "graph_page.svg");
        FileWritten (output_dir +:+ "/temp2.js");
        ProcessRun ["phantomjs"; output_dir +:+ "/temp2.js"];
        FileRemoved (output_dir +:+ str_int (P - 1 + 1) +:+ ".svg");
        FileRemoved (output_dir +:+ "graph_page.svg");
        FileRemoved (output_dir +:+ "/temp2.js")].
Proof.
  intros Hres Htime Hpp Hf Hrun.
  by destruct (generate_returned_world env one_strip_time strips_per_page
                 ecg_data output_dir output_file_name export_to meta kwargs
                 Htime Hpp Hf w l m w' Hres Hrun) as [_ Hev].
Qed.

Lemma run_event_log_witness :
  exists m w',
    generate_ecg_graph strict_env (VList 1%positive) "/tmp/" "graph" "pdf" ∅
      (Some (PFloat 4)) (caller_world [ENum 1])
    = (inr m, w')
    /\ events w'
       = [FileWritten "/tmp/1.svg"; FileWritten "/tmp/1.svg";
          FileWritten "/tmp/graph_page.svg"; FileWritten "/tmp//temp2.js";
          ProcessRun ["phantomjs"; "/tmp//temp2.js"];
          FileRemoved "/tmp/1.svg"; FileRemoved "/tmp/graph_page.svg";
          FileRemoved "/tmp//temp2.js"].
Proof.
  destruct (generate_ecg_graph strict_env (VList 1%positive) "/tmp/" "graph" "pdf" ∅
              (Some (PFloat 4)) (caller_world [ENum 1]))
    as [[s|m] w'] eqn:Hrun.
  - exfalso. vm_compute in Hrun. discriminate.
  - exists m, w'. split; [reflexivity|].
    rewrite (run_event_log strict_env 8 4 (VList 1%positive) "/tmp/" "graph"
               "pdf" ∅ (Some (PFloat 4)) (caller_world [ENum 1]) [ENum 1] m w').
    + vm_compute. reflexivity.
    + reflexivity.
    + lia.
    + lia.
    + reflexivity.
    + exact Hrun.
Defined.

(** X8. Only the last page's drawing is removed: after a run that
    returns, the drawing of every earlier page has been written and is
    still there. *)
Theorem earlier_drawings_stay env one_strip_time strips_per_page
    ecg_data output_dir output_file_name export_to meta kwargs w l m w' (i : Z) :
  resolved env w ecg_data = Some l ->
  0 < one_strip_time -> 0 < strips_per_page ->
  (0 < default default_frequency kwargs)%Q ->
  generate_ecg_graph_with env one_strip_time strips_per_page ecg_data
    output_dir output_file_name export_to meta kwargs w = (inr m, w') ->
  0 <= i < page_count one_strip_time strips_per_page (len l + 125)
             (default default_frequency kwargs) - 1 ->
  FileRemoved (output_dir +:+ str_int (i + 1) +:+ ".svg") ∉ events w ->
  FileWritten (output_dir +:+ str_int (i + 1) +:+ ".svg") ∈ events w'
  /\ FileRemoved (output_dir +:+ str_int (i + 1) +:+ ".svg") ∉ events w'.
Proof.
  intros Hres Htime Hpp Hf Hrun Hi Hbefore.
  destruct (generate_returned_world env one_strip_time strips_per_page
              ecg_data output_dir output_file_name export_to meta kwargs
              Htime Hpp Hf w l m w' Hres Hrun) as [_ ->].
  set (P := page_count one_strip_time strips_per_page (len l + 125)
              (default default_frequency kwargs)) in *.
  fold (svg_name output_dir i) in *.
  split.
  - apply elem_of_app. right. apply elem_of_app. left.
    apply list_elem_of_In, in_concat.
    exists (page_writes output_dir i). split.
    + apply in_map, list_elem_of_In, elem_of_py_range. lia.
    + by left.
  - intros Hin.
    apply elem_of_app in Hin as [Hin|Hin]; [done|].
    apply elem_of_app in Hin as [Hin|Hin].
    + apply list_elem_of_In, in_concat in Hin as (ws & Hws & Hin).
      apply in_map_iff in Hws as (j & <- & _).
      destruct Hin as [Hin|[Hin|[]]]; discriminate.
    + repeat (apply elem_of_cons in Hin as [Hin|Hin]; [try discriminate|]).
      * injection Hin as Hin. apply svg_name_inj in Hin; lia.
      * injection Hin as Hin. by apply svg_name_not_graph_page in Hin; [|lia].
      * injection Hin as Hin. by apply svg_name_not_temp in Hin.
      * by apply elem_of_nil in Hin.
Qed.

Lemma earlier_drawings_stay_witness :
  exists m w',
    generate_ecg_graph strict_env (VList 1%positive) "/tmp/" "graph" "pdf" ∅
      (Some (PFloat 1)) (caller_world [ENum 1; ENum 2; ENum 3])
    = (inr m, w')
    /\ FileWritten ("/tmp/" +:+ str_int (0 + 1) +:+ ".svg") ∈ events w'
    /\ FileRemoved ("/tmp/" +:+ str_int (0 + 1) +:+ ".svg") ∉ events w'.
Proof.
  destruct (generate_ecg_graph strict_env (VList 1%positive) "/tmp/" "graph" "pdf" ∅
              (Some (PFloat 1)) (caller_world [ENum 1; ENum 2; ENum 3]))
    as [[s|m] w'] eqn:Hrun.
  - exfalso. vm_compute in Hrun. discriminate.
  - exists m, w'. split; [reflexivity|].
    apply (earlier_drawings_stay strict_env 8 4 (VList 1%positive) "/tmp/" "graph"
             "pdf" ∅ (Some (PFloat 1)) (caller_world [ENum 1; ENum 2; ENum 3])
             [ENum 1; ENum 2; ENum 3] m w' 0).
    + vm_compute. reflexivity.
    + lia.
    + lia.
    + reflexivity.
    + exact Hrun.
    + assert (Hp : page_count 8 4 (len [ENum 1; ENum 2; ENum 3] + 125)
                     (default default_frequency (Some (PFloat 1))) = 4)
        by (vm_compute; reflexivity).
      rewrite Hp. lia.
    + unfold caller_world. cbn [events]. apply not_elem_of_nil.
Defined.

(** * Runs that stop early *)

Lemma enumerate_prefix {A} (l : list A) (done rest : list (Z * A)) :
  enumerate l = done ++ rest ->
  done.*1 = py_range (len done) /\ len done + len rest = len l.
Proof.
  intros H. split.
  - pose proof (enumerate_fst_range l) as Hr. rewrite H, fmap_app in Hr.
    apply (f_equal (take (length done))) in Hr.
    rewrite take_app_length' in Hr by (by rewrite length_fmap).
    rewrite Hr. unfold py_range.
    change (map Z.of_nat) with (fmap (M:=list) Z.of_nat).
    rewrite <- fmap_take, take_seq. do 2 f_equal.
    apply (f_equal length) in H.
    unfold enumerate in H. rewrite length_imap, length_app in H. lia.
  - apply (f_equal length) in H.
    unfold enumerate in H. rewrite length_imap, length_app in H. lia.
Qed.

Section StoppedRun.

Context (env : Env) (one_strip_time strips_per_page : Z).
Context (ecg_data : pyvalue) (output_dir output_file_name export_to : string).
Context (meta : gmap string disp) (kwargs : option pynum).

Let f : pynum := default default_frequency kwargs.

(** The store is the caller's but for the list that is [record]. *)
Lemma generate_heap w :
  let w' := (generate_ecg_graph_with env one_strip_time strips_per_page ecg_data
               output_dir output_file_name export_to meta kwargs w).2 in
  heap w' = heap w
  \/ exists l l',
       resolved env w ecg_data = Some l
       /\ heap w' = <[(located w ecg_data l).1 := l']> (heap (located w ecg_data l).2).
Proof.
  cbn zeta. unfold generate_ecg_graph_with.
  destruct (bool_decide (export_to ∈ ["pdf"; "jpg"; "png"])); cbn [negb]; [|by left].
  fold f.
  destruct (resolved env w ecg_data) as [l|] eqn:Hres.
  - right. exists l.
    pose proof (partition_record_run env one_strip_time strips_per_page
                  ecg_data f w l Hres) as Hrun. cbn zeta in Hrun.
    destruct (Qeq_bool (one_strip_length one_strip_time f) 0).
    { erewrite bind_inl by exact Hrun. by eexists. }
    destruct (partition _ _) as [record_list|].
    2:{ erewrite bind_inl by exact Hrun. by eexists. }
    erewrite bind_inr by exact Hrun.
    eexists. split; [done|].
    unfold bind at 1.
    pose proof (plot_pages_heap env one_strip_time output_dir output_file_name
                  export_to
                  (subplot_rows one_strip_time strips_per_page (len l + 125) f)
                  f (enumerate record_list) (∅, None)
                  (World (<[(located w ecg_data l).1
                            := padded_trace one_strip_time strips_per_page l f]>
                            (heap (located w ecg_data l).2))
                         (events (located w ecg_data l).2))) as Hheap.
    destruct (plot_pages _ _ _ _ _ _ _ _ _ _) as [[s|st] w3]; [exact Hheap|].
    cbn [snd] in Hheap.
    etrans; [apply (finish_heap env output_dir)|exact Hheap].
  - left.
    destruct (partition_record_unresolved env one_strip_time strips_per_page
                ecg_data f w Hres) as (s & Hrun & _).
    by erewrite bind_inl by exact Hrun.
Qed.

Hypotheses (Htime : 0 < one_strip_time) (Hpp : 0 < strips_per_page).
Hypothesis Hf : (0 < f)%Q.

(** A strip of no sample at all: the first page cannot be cut. *)
Lemma short_strip_run w l :
  supported export_to ->
  resolved env w ecg_data = Some l ->
  py_int (one_strip_length one_strip_time f) = 0 ->
  generate_ecg_graph_with env one_strip_time strips_per_page ecg_data
    output_dir output_file_name export_to meta kwargs w
  = (inl (Uncaught "ValueError"),
     partitioned one_strip_time strips_per_page ecg_data kwargs w l).
Proof.
  intros Hex Hres Hzero.
  destruct (generate_run env one_strip_time strips_per_page ecg_data
              output_dir output_file_name export_to meta kwargs Htime Hpp Hf
              w l Hex Hres) as (record_list & Hpart & ->).
  destruct (record_list_length one_strip_time strips_per_page kwargs
              Htime Hpp Hf l record_list Hpart) as [_ Hne].
  destruct record_list as [|rec record_list]; [done|].
  fold f. cbn [enumerate imap plot_pages].
  erewrite bind_inl; [reflexivity|].
  unfold plot_page. apply bind_inl. by rewrite Hzero.
Qed.

(** A run that ends at the plot error of line 251: the pages before the
    one refused were drawn, and nothing else was done. *)
Lemma generate_plot_error w l w' :
  resolved env w ecg_data = Some l ->
  generate_ecg_graph_with env one_strip_time strips_per_page ecg_data
    output_dir output_file_name export_to meta kwargs w
    = (inl Error_in_plotting, w') ->
  exists done rest : list (Z * list elem),
    done.*1 = py_range (len done)
    /\ rest <> []
    /\ len done + len rest
       = page_count one_strip_time strips_per_page (len l + 125) f
    /\ w' = (pages_done output_dir output_file_name export_to done
               ((∅, None),
                partitioned one_strip_time strips_per_page ecg_data kwargs w l)).2.
Proof.
  intros Hres Hrun.
  assert (Hex : supported export_to).
  { unfold supported. destruct (decide (export_to ∈ ["pdf"; "jpg"; "png"])); [done|].
    unfold generate_ecg_graph_with in Hrun.
    by rewrite bool_decide_eq_false_2 in Hrun by done. }
  destruct (generate_run env one_strip_time strips_per_page ecg_data
              output_dir output_file_name export_to meta kwargs Htime Hpp Hf
              w l Hex Hres) as (record_list & Hpart & Heq).
  destruct (record_list_length one_strip_time strips_per_page kwargs
              Htime Hpp Hf l record_list Hpart) as [Hlen Hne].
  rewrite Heq in Hrun. fold f in Hrun.
  destruct (plot_pages _ _ _ _ _ _ _ _ _ _) as [[s0|st] w3] eqn:Hpages.
  - injection Hrun as -> ->.
    apply plot_pages_stops in Hpages
      as (done & seq & rec & rest & Hsplit & Hpage).
    apply plot_page_stopped in Hpage
      as [(_ & [=] & _)|[(_ & _ & _ & ->)|(_ & _ & _ & [=])]].
    destruct (enumerate_prefix record_list done ((seq, rec) :: rest) Hsplit)
      as [Hfst Hsum].
    exists done, ((seq, rec) :: rest). split_and!; [done|done| |done].
    rewrite Hsum. exact Hlen.
  - by apply finish_inl in Hrun.
Qed.

End StoppedRun.

(** X9. A run that ends at the plot error of line 251, where the
    renderer refused a strip, leaves the padded trace in the list that is
    [record], and leaves on disk the drawings of the pages done before:
    its only effects are the two writes of each of the first [k] pages,
    for some [k] below the page count. Nothing was removed, the converter
    did not run, and no operation raised. *)
Theorem stopped_run_keeps_drawings env one_strip_time strips_per_page
    ecg_data output_dir output_file_name export_to meta kwargs w l w' :
  resolved env w ecg_data = Some l ->
  0 < one_strip_time -> 0 < strips_per_page ->
  (0 < default default_frequency kwargs)%Q ->
  generate_ecg_graph_with env one_strip_time strips_per_page ecg_data
    output_dir output_file_name export_to meta kwargs w
    = (inl Error_in_plotting, w') ->
  heap w' !! (located w ecg_data l).1
  = Some (padded_trace one_strip_time strips_per_page l
            (default default_frequency kwargs))
  /\ exists k,
       0 <= k < page_count one_strip_time strips_per_page (len l + 125)
                  (default default_frequency kwargs)
       /\ events w'
          = events w
            ++ concat (map (fun seq =>
                         [FileWritten (output_dir +:+ str_int (seq + 1) +:+ ".svg");
                          FileWritten (output_dir +:+ str_int (seq + 1) +:+ ".svg")])
                       (py_range k)).
Proof.
  intros Hres Htime Hpp Hf Hrun.
  destruct (generate_plot_error env one_strip_time strips_per_page ecg_data
              output_dir output_file_name export_to meta kwargs Htime Hpp Hf
              w l w' Hres Hrun)
    as (done & rest & Hfst & Hrest & Hsum & ->).
  split.
  - rewrite pages_done_heap. unfold partitioned. cbn [snd heap].
    apply lookup_insert_eq.
  - exists (len done). split.
    + destruct rest; [done|]. rewrite length_cons in Hsum. lia.
    + rewrite pages_done_events. cbn [snd]. unfold partitioned. cbn [events].
      rewrite located_events. f_equal.
      rewrite <- (map_map fst (page_writes output_dir)).
      change (map fst done) with (done.*1). by rewrite Hfst.
Qed.

Lemma stopped_run_keeps_drawings_witness :
  exists w',
    generate_ecg_graph strict_env (VList 1%positive) "/tmp/" "graph" "pdf" ∅
      (Some (PFloat 1)) (caller_world [EObj "x"])
    = (inl Error_in_plotting, w')
    /\ heap w' !! 1%positive
       = Some (padded_trace 8 4 [EObj "x"] (default default_frequency (Some (PFloat 1))))
    /\ exists k,
         0 <= k < page_count 8 4 (len [EObj "x"] + 125)
                    (default default_frequency (Some (PFloat 1)))
         /\ events w'
            = events (caller_world [EObj "x"])
              ++ concat (map (fun seq =>
                           [FileWritten ("/tmp/" +:+ str_int (seq + 1) +:+ ".svg");
                            FileWritten ("/tmp/" +:+ str_int (seq + 1) +:+ ".svg")])
                         (py_range k)).
Proof.
  destruct (generate_ecg_graph strict_env (VList 1%positive) "/tmp/" "graph" "pdf" ∅
              (Some (PFloat 1)) (caller_world [EObj "x"]))
    as [res w'] eqn:Hrun.
  assert (Hres : res = inl Error_in_plotting).
  { apply (f_equal fst) in Hrun. cbn [fst] in Hrun. rewrite <- Hrun.
    vm_compute. reflexivity. }
  subst res. exists w'. split; [reflexivity|].
  apply (stopped_run_keeps_drawings strict_env 8 4 (VList 1%positive) "/tmp/"
           "graph" "pdf" ∅ (Some (PFloat 1)) (caller_world [EObj "x"]) [EObj "x"] w').
  - vm_compute. reflexivity.
  - lia.
  - lia.
  - reflexivity.
  - exact Hrun.
Defined.

(** X10. In the metadata of a run that returns, every entry of the
    caller's [meta] is in [display_information] as given, also under one
    of the four computed labels; a computed label the caller did not give
    shows the matching field of the same metadata; and there is no other
    entry. *)
Theorem labels_follow_metadata env one_strip_time strips_per_page
    ecg_data output_dir output_file_name export_to meta kwargs w l m w' :
  resolved env w ecg_data = Some l ->
  0 < one_strip_time -> 0 < strips_per_page ->
  (0 < default default_frequency kwargs)%Q ->
  generate_ecg_graph_with env one_strip_time strips_per_page ecg_data
    output_dir output_file_name export_to meta kwargs w = (inr m, w') ->
  (forall key v, meta !! key = Some v ->
     md_display_information m !! key = Some v)
  /\ (meta !! "Record frequency" = None ->
      md_display_information m !! "Record frequency"
      = Some (DStr (py_str env (md_record_frequency m) +:+ " Hz")))
  /\ (meta !! "Scale" = None ->
      md_display_information m !! "Scale" = Some (DStr (md_scale m)))
  /\ (meta !! "No. of signals" = None ->
      md_display_information m !! "No. of signals"
      = Some (DInt (md_signals_num m)))
  /\ (meta !! "Duration" = None ->
      md_display_information m !! "Duration"
      = Some (DStr (str_int (md_record_time m) +:+ " seconds")))
  /\ (forall key,
        is_Some (md_display_information m !! key)
        <-> is_Some (meta !! key)
            \/ key ∈ ["Record frequency"; "Scale"; "No. of signals"; "Duration"]).
Proof.
  intros Hres Htime Hpp Hf Hrun.
  destruct (generate_returned env _ _ _ _ _ _ _ _ Htime Hpp Hf _ _ _ _ Hres Hrun)
    as (_ & record_list & _ & -> & _).
  cbn [md_display_information md_record_frequency md_scale md_signals_num
       md_record_time].
  unfold display_information.
  split_and!.
  - intros key v Hkey. by apply lookup_union_Some_l.
  - intros Hnone. by rewrite lookup_union_r by done.
  - intros Hnone. by rewrite lookup_union_r by done.
  - intros Hnone. by rewrite lookup_union_r by done.
  - intros Hnone. by rewrite lookup_union_r by done.
  - intros key. rewrite lookup_union_is_Some.
    rewrite !lookup_insert_is_Some', lookup_empty, !elem_of_cons, elem_of_nil.
    pose proof (@is_Some_None disp) as Hnone.
    split; intros [Hm|Hk]; [by left|right|by left|right];
      intuition congruence.
Qed.

Lemma labels_follow_metadata_witness :
  exists m w',
    generate_ecg_graph strict_env (VList 1%positive) "/tmp/" "graph" "pdf"
      {[ "Duration" := DStr "a while" ]}
      (Some (PFloat 1)) (caller_world [ENum 1; ENum 2; ENum 3])
    = (inr m, w')
    /\ md_display_information m !! "Duration" = Some (DStr "a while")
    /\ md_display_information m !! "No. of signals" = Some (DInt (md_signals_num m)).
Proof.
  destruct (generate_ecg_graph strict_env (VList 1%positive) "/tmp/" "graph" "pdf"
              {[ "Duration" := DStr "a while" ]}
              (Some (PFloat 1)) (caller_world [ENum 1; ENum 2; ENum 3]))
    as [[s|m] w'] eqn:Hrun.
  - exfalso. vm_compute in Hrun. discriminate.
  - exists m, w'. split; [reflexivity|].
    destruct (labels_follow_metadata strict_env 8 4 (VList 1%positive) "/tmp/"
                "graph" "pdf" {[ "Duration" := DStr "a while" ]} (Some (PFloat 1))
                (caller_world [ENum 1; ENum 2; ENum 3])
                [ENum 1; ENum 2; ENum 3] m w')
      as (Hmeta & _ & _ & Hnum & _).
    + vm_compute. reflexivity.
    + lia.
    + lia.
    + reflexivity.
    + exact Hrun.
    + split; [apply Hmeta|apply Hnum]; vm_compute; reflexivity.
Defined.

(** With the strict collaborators, one sample at 3.9375 Hz: a strip is
    counted as 31.5 samples and cut 31 long, so the one page is cut into
    5 strips where 4 rows were counted. The fifth call of [p.subplot]
    raises, outside the [try], before any file is written. *)
Lemma fifth_strip_has_no_row :
  let run := generate_ecg_graph strict_env (VList 1%positive) "/tmp/" "graph"
               "pdf" ∅ (Some (PFloat (63 # 16))) (caller_world [ENum 1]) in
  run.1 = inl (Uncaught "ValueError")
  /\ events run.2 = []
  /\ subplot_rows 8 4 (1 + 125) (63 # 16) = 4
  /\ (strips ← chunks (replicate 125 ENone ++ [ENum 1])
                 (py_int (one_strip_length 8 (63 # 16)));
      Some (len strips)) = Some 5.
Proof. vm_compute. done. Qed.

(** X11. With collaborators that keep their contracts (a renderer that
    draws every equal-length pair of numeric-or-missing values, a grid
    that hands out the cells within its rows, a file system and a
    converter that do not fail), a supported format, an input that
    resolves to floats and missing markers, and a record frequency at
    which a strip lasts a whole number of samples, the run returns
    metadata. *)
Theorem run_returns_on_whole_strips env one_strip_time strips_per_page
    ecg_data output_dir output_file_name export_to meta kwargs w l :
  renderer_accepts env ->
  subplot_accepts env ->
  io_succeeds env ->
  supported export_to ->
  resolved env w ecg_data = Some l ->
  Forall is_sample l ->
  0 < one_strip_time -> 0 < strips_per_page ->
  (0 < default default_frequency kwargs)%Q ->
  (inject_Z (py_int (one_strip_length one_strip_time
                       (default default_frequency kwargs)))
   == one_strip_length one_strip_time (default default_frequency kwargs))%Q ->
  is_Some (returned (generate_ecg_graph_with env one_strip_time strips_per_page
                       ecg_data output_dir output_file_name export_to meta
                       kwargs w)).
Proof.
  intros Hacc Hsub Hio Hex Hres Hl Htime Hpp Hf Hint.
  destruct (generate_succeeds env one_strip_time strips_per_page ecg_data
              output_dir output_file_name export_to meta kwargs Htime Hpp Hf
              w l Hacc Hsub Hio Hex Hres Hl Hint) as (m & w' & ->).
  by exists m.
Qed.

Lemma run_returns_on_whole_strips_witness :
  is_Some (returned (generate_ecg_graph strict_env (VList 1%positive) "/tmp/"
                       "graph" "pdf" ∅ (Some (PInt 1))
                       (caller_world [ENum 1; ENone]))).
Proof.
  unfold generate_ecg_graph.
  apply (run_returns_on_whole_strips strict_env 8 4 (VList 1%positive) "/tmp/"
           "graph" "pdf" ∅ (Some (PInt 1)) (caller_world [ENum 1; ENone])
           [ENum 1; ENone]).
  - exact strict_env_accepts.
  - exact strict_env_subplot.
  - exact strict_env_io.
  - by_decide.
  - vm_compute. reflexivity.
  - repeat constructor.
  - lia.
  - lia.
  - reflexivity.
  - reflexivity.
Defined.

(** X12. A record frequency of zero, with a supported format and an input
    that resolves: the division at line 172 raises [ZeroDivisionError],
    which nothing catches. By then the list that is [record] holds the
    125 markers before the samples; no file was written. *)
Theorem zero_frequency_divides_by_zero env one_strip_time strips_per_page
    ecg_data output_dir output_file_name export_to meta kwargs w l :
  supported export_to ->
  resolved env w ecg_data = Some l ->
  (default default_frequency kwargs == 0)%Q ->
  generate_ecg_graph_with env one_strip_time strips_per_page ecg_data
    output_dir output_file_name export_to meta kwargs w
  = (inl (Uncaught "ZeroDivisionError"),
     World (<[(located w ecg_data l).1 := replicate 125 ENone ++ l]>
              (heap (located w ecg_data l).2))
           (events w)).
Proof.
  intros Hex Hres Hzero.
  unfold generate_ecg_graph_with, supported in *.
  rewrite bool_decide_eq_true_2 by done. cbn [negb].
  pose proof (partition_record_run env one_strip_time strips_per_page ecg_data
                (default default_frequency kwargs) w l Hres) as Hrun.
  cbn zeta in Hrun.
  assert (Hq : Qeq_bool (one_strip_length one_strip_time
                           (default default_frequency kwargs)) 0 = true).
  { apply Qeq_bool_iff. unfold one_strip_length. rewrite Hzero. ring. }
  rewrite Hq, located_events in Hrun.
  by erewrite bind_inl by exact Hrun.
Qed.

Lemma zero_frequency_divides_by_zero_witness :
  generate_ecg_graph strict_env (VList 1%positive) "/tmp/" "graph" "pdf" ∅
    (Some (PFloat 0)) (caller_world [ENum 1])
  = (inl (Uncaught "ZeroDivisionError"),
     World (<[1%positive := replicate 125 ENone ++ [ENum 1]]>
              (heap (caller_world [ENum 1])))
           (events (caller_world [ENum 1]))).
Proof.
  apply (zero_frequency_divides_by_zero strict_env 8 4 (VList 1%positive) "/tmp/"
           "graph" "pdf" ∅ (Some (PFloat 0)) (caller_world [ENum 1]) [ENum 1]).
  - by_decide.
  - vm_compute. reflexivity.
  - reflexivity.
Defined.

(** X13. A positive record frequency so low that
    [int(one_strip_time * record_frequency)] is 0: with a supported format
    and an input that resolves, [chunks] is asked for steps of 0 and
    [xrange] raises [ValueError] outside the [try] of the plot call, so
    nothing catches it. No marker was appended at the tail, since a strip
    holds none: the list that is [record] holds the 125 markers and the
    samples. No file was written. *)
Theorem empty_strip_raises_value_error env one_strip_time strips_per_page
    ecg_data output_dir output_file_name export_to meta kwargs w l :
  supported export_to ->
  resolved env w ecg_data = Some l ->
  0 < one_strip_time -> 0 < strips_per_page ->
  (0 < default default_frequency kwargs)%Q ->
  py_int (one_strip_length one_strip_time (default default_frequency kwargs)) = 0 ->
  generate_ecg_graph_with env one_strip_time strips_per_page ecg_data
    output_dir output_file_name export_to meta kwargs w
  = (inl (Uncaught "ValueError"),
     World (<[(located w ecg_data l).1 := replicate 125 ENone ++ l]>
              (heap (located w ecg_data l).2))
           (events w)).
Proof.
  intros Hex Hres Htime Hpp Hf Hzero.
  rewrite (short_strip_run env one_strip_time strips_per_page ecg_data
             output_dir output_file_name export_to meta kwargs Htime Hpp Hf
             w l Hex Hres Hzero).
  unfold partitioned, padded_trace.
  rewrite located_events, Hzero.
  change (Z.to_nat 0) with 0%nat. rewrite Nat.mul_0_r.
  cbn [replicate]. by rewrite app_nil_r.
Qed.

Lemma empty_strip_raises_value_error_witness :
  generate_ecg_graph strict_env (VList 1%positive) "/tmp/" "graph" "pdf" ∅
    (Some (PFloat (1 # 16))) (caller_world [ENum 1])
  = (inl (Uncaught "ValueError"),
     World (<[1%positive := replicate 125 ENone ++ [ENum 1]]>
              (heap (caller_world [ENum 1])))
           (events (caller_world [ENum 1]))).
Proof.
  apply (empty_strip_raises_value_error strict_env 8 4 (VList 1%positive) "/tmp/"
           "graph" "pdf" ∅ (Some (PFloat (1 # 16))) (caller_world [ENum 1]) [ENum 1]).
  - by_decide.
  - vm_compute. reflexivity.
  - lia.
  - lia.
  - reflexivity.
  - vm_compute. reflexivity.
Defined.

(** X14. Whatever the arguments and however the run ends, it changes no
    list but the one passed as [ecg_data]: every other list of the store
    is afterwards what it was. With a path, a number or [None] as
    [ecg_data], no list of the caller's is changed at all. *)
Theorem other_lists_untouched env one_strip_time strips_per_page
    ecg_data output_dir output_file_name export_to meta kwargs w r x :
  heap w !! r = Some x ->
  ecg_data <> VList r ->
  heap (generate_ecg_graph_with env one_strip_time strips_per_page ecg_data
          output_dir output_file_name export_to meta kwargs w).2 !! r
  = Some x.
Proof.
  intros Hr Hne.
  destruct (generate_heap env one_strip_time strips_per_page ecg_data
              output_dir output_file_name export_to meta kwargs w)
    as [->|(l & l' & _ & ->)]; [done|].
  destruct ecg_data as [r0| |p|n|]; cbn [located fst snd heap].
  - rewrite lookup_insert_ne by congruence. done.
  - rewrite !lookup_insert_ne; [done|..];
      intros <-; apply (is_fresh (dom (heap w))), elem_of_dom; by eexists.
  - rewrite !lookup_insert_ne; [done|..];
      intros <-; apply (is_fresh (dom (heap w))), elem_of_dom; by eexists.
  - rewrite !lookup_insert_ne; [done|..];
      intros <-; apply (is_fresh (dom (heap w))), elem_of_dom; by eexists.
  - rewrite !lookup_insert_ne; [done|..];
      intros <-; apply (is_fresh (dom (heap w))), elem_of_dom; by eexists.
Qed.

Lemma other_lists_untouched_witness :
  heap (generate_ecg_graph record_file_env (VStr "record.txt") "/tmp/" "graph"
          "pdf" ∅ (Some (PFloat 1)) (caller_world [ENum 7])).2 !! 1%positive
  = Some [ENum 7].
Proof.
  unfold generate_ecg_graph.
  apply (other_lists_untouched record_file_env 8 4 (VStr "record.txt") "/tmp/"
           "graph" "pdf" ∅ (Some (PFloat 1)) (caller_world [ENum 7]) 1%positive [ENum 7]).
  - reflexivity.
  - discriminate.
Defined.
